(** * The request handler of the Higure proxy (main.go)

    A shallow embedding of [requestHandler], [sendErr] and [deref] together
    with the library behaviour they rely on: Go's [strings] and [path]
    packages on byte strings, BSON documents decoded into [bson.M], the
    three MongoDB collections, the S3 object store, [encoding/json] and
    [html/template].

    Go strings are byte sequences: they are modelled by [string], one
    [ascii] per byte.  A [bson.M] is a [gmap string bval]. *)

From Stdlib Require Import Ascii ZArith Lia Bool.
From stdpp Require Import gmap strings list fin_maps.

#[local] Set Warnings "-register-all".

(* ===================================================================== *)
(** * Go's [strings] package *)
(* ===================================================================== *)

Module Strings.

(** [s[:n]] for [n <= len(s)]. *)
Fixpoint slice_to (n : nat) (s : string) : string :=
  match n, s with
  | S n', String c s' => String c (slice_to n' s')
  | _, _ => EmptyString
  end.

(** [s[n:]] for [n <= len(s)]. *)
Fixpoint slice_from (n : nat) (s : string) : string :=
  match n, s with
  | S n', String _ s' => slice_from n' s'
  | _, _ => s
  end.

(** [strings.HasPrefix(s, prefix)]:
    [len(s) >= len(prefix) && s[:len(prefix)] == prefix]. *)
Definition HasPrefix (s prefix : string) : bool :=
  (String.length prefix <=? String.length s)%nat
  && String.eqb (slice_to (String.length prefix) s) prefix.

(** [strings.HasSuffix(s, suffix)]:
    [len(s) >= len(suffix) && s[len(s)-len(suffix):] == suffix]. *)
Definition HasSuffix (s suffix : string) : bool :=
  (String.length suffix <=? String.length s)%nat
  && String.eqb (slice_from (String.length s - String.length suffix) s) suffix.

(** [strings.Index(s, substr)]: the byte offset of the first occurrence,
    [None] standing for Go's [-1]. *)
Fixpoint Index (s substr : string) : option nat :=
  if HasPrefix s substr then Some 0
  else match s with
       | EmptyString => None
       | String _ s' => S <$> Index s' substr
       end.

(** [strings.SplitN(s, sep, 2)] for a non-empty [sep]: cut at the first
    occurrence of [sep], or the whole of [s] alone when there is none. *)
Definition SplitN2 (s sep : string) : list string :=
  match Index s sep with
  | None => [s]
  | Some m => [slice_to m s; slice_from (m + String.length sep) s]
  end.

(** The loop of [strings.Replace] for a non-empty [old]: find the next
    occurrence, copy what precedes it, write [new], go on after it.
    [fuel] bounds the number of rounds. *)
Fixpoint replace_loop (fuel : nat) (s old new : string) : string :=
  match fuel with
  | O => s
  | S fuel' =>
      match Index s old with
      | None => s
      | Some j =>
          slice_to j s +:+ new
            +:+ replace_loop fuel' (slice_from (j + String.length old) s) old new
      end
  end.

(** [strings.ReplaceAll(s, old, new)] for a non-empty [old] (Go counts the
    non-overlapping occurrences first, of which there are at most
    [len(s)]).  The only call sites pass the constant token. *)
Definition ReplaceAll (s old new : string) : string :=
  replace_loop (String.length s) s old new.

(** [strings.Join(elems, sep)]; used to state what [ReplaceAll] does. *)
Fixpoint Join (elems : list string) (sep : string) : string :=
  match elems with
  | [] => EmptyString
  | [e] => e
  | e :: rest => e +:+ sep +:+ Join rest sep
  end.

(** Byte membership, for the side conditions of the lemmas below. *)
Fixpoint has_byte (c : ascii) (s : string) : bool :=
  match s with
  | EmptyString => false
  | String d s' => Ascii.eqb c d || has_byte c s'
  end.

End Strings.

(* ===================================================================== *)
(** * Go's [path.Base] *)
(* ===================================================================== *)

Module Path.

(** [for len(path) > 0 && path[len(path)-1] == '/' { path = path[:len-1] }] *)
Fixpoint stripTrailingSlashes (p : string) : string :=
  match p with
  | EmptyString => EmptyString
  | String c p' =>
      match stripTrailingSlashes p' with
      | EmptyString => if Ascii.eqb c "/" then EmptyString else String c EmptyString
      | t => String c t
      end
  end.

(** [strings.LastIndex(path, "/")], [None] standing for [-1]. *)
Fixpoint LastIndexSlash (p : string) : option nat :=
  match p with
  | EmptyString => None
  | String c p' =>
      match LastIndexSlash p' with
      | Some i => Some (S i)
      | None => if Ascii.eqb c "/" then Some 0 else None
      end
  end.

(** [path.Base]. *)
Definition Base (p : string) : string :=
  if String.eqb p "" then "."
  else
    let p := stripTrailingSlashes p in
    let p := match LastIndexSlash p with
             | Some i => Strings.slice_from (i + 1) p
             | None => p
             end in
    if String.eqb p "" then "/" else p.

End Path.

(* ===================================================================== *)
(** * BSON values and the metadata store *)
(* ===================================================================== *)

(** What [Decode] puts into a [bson.M]: the value of a field is a string, a
    boolean, an integer, null or an embedded document (a [primitive.M]
    again, since the target is a [bson.M]). *)
Inductive bval : Type :=
  | BStr (s : string)
  | BBool (b : bool)
  | BNum (z : Z)
  | BNull
  | BDoc (d : gmap string bval).

Abbreviation doc := (gmap string bval).

#[global] Instance bval_eq_dec : EqDecision bval.
Proof.
  refine (fix go (x y : bval) : Decision (x = y) :=
    let _ : EqDecision bval := @go in
    match x, y with
    | BStr a, BStr b => cast_if (decide (a = b))
    | BBool a, BBool b => cast_if (decide (a = b))
    | BNum a, BNum b => cast_if (decide (a = b))
    | BNull, BNull => left _
    | BDoc a, BDoc b => cast_if (decide (a = b))
    | _, _ => right _
    end); abstract congruence.
Defined.

(** [m[k]] on a [bson.M] is an [interface{}], here [m !! k]: [None] is
    Go's nil interface, the value of an absent key.

    [v == true] on an [interface{}]: true only for the boolean [true]; a
    value of another dynamic type compares unequal without panicking. *)
Definition is_true (v : option bval) : bool :=
  match v with
  | Some (BBool true) => true
  | _ => false
  end.

(** The three MongoDB collections behind the globals [collection]
    (files), [shortenerCol] (shorteners) and [invisibleURL]
    (invisibleurls). *)
Record Database := {
  collection : list doc;
  shortenerCol : list doc;
  invisibleURL : list doc
}.

(** Whether a document's field satisfies the equality filter [{key: fv}].
    A nil or null filter value matches a missing or null field; any other
    value matches by equality. *)
Definition field_matches (dv fv : option bval) : bool :=
  match fv with
  | None | Some BNull =>
      match dv with
      | None | Some BNull => true
      | _ => false
      end
  | Some v => bool_decide (dv = Some v)
  end.

(** [col.FindOne(ctx, bson.M{key: fv})]: the first matching document, or
    [None] when [Decode] would report an error (no document). *)
Definition FindOne (col : list doc) (key : string) (fv : option bval) : option doc :=
  List.find (fun d => field_matches (d !! key) fv) col.

(** [Decode(&file)] into a [bson.M]: a nil map is allocated, and the
    fields of the document are stored into the map, which keeps the
    entries it already had under other keys (the driver's map decoder does
    not clear the destination).  This matters on line 180, where the file
    record is decoded into the map that holds the alias record. *)
Definition Decode (d : doc) (file : option doc) : doc :=
  d ∪ default ∅ file.

(* ===================================================================== *)
(** * The object store, the template engine and the JSON encoder *)
(* ===================================================================== *)

Inductive result (A : Type) : Type :=
  | Ok (a : A)
  | Err (msg : string).
Arguments Ok {A} a.
Arguments Err {A} msg.

(** [*s3.GetObjectOutput]: the [ContentType] pointer and what
    [ioutil.ReadAll(resp.Body)] returns. *)
Record GetObjectOutput := {
  ContentType : option string;
  ReadAll_Body : result string
}.

(** [deref]. *)
Definition deref (str : option string) : string :=
  match str with
  | Some s => s
  | None => ""
  end.

Inductive template := embedTemplate | showLinkTemplate.

(** The anonymous struct handed to the embed template. *)
Record EmbedData := {
  FileURL : string;
  OEmbedURL : string;
  Desc : string;
  Color : string;
  Image : bool;
  Video : bool;
  User : string;
  Size : string;
  Name : string
}.

(** The data of either template; the show-link page only has [FileURL]. *)
Inductive tdata :=
  | EmbedPage (d : EmbedData)
  | ShowLinkPage (fileURL : string).

(** JSON documents as [encoding/json] lays them out for the two response
    structs. *)
Inductive json :=
  | JString (s : string)
  | JBool (b : bool)
  | JObject (fields : list (string * json)).

(** Everything the handler reaches outside of itself.
    - [Getenv]: [os.Getenv];
    - [db]: the collections;
    - [GetObject bucket key]: [svc.GetObject];
    - [Parse t]: the error of [template.New(..).Parse(t)], if any;
    - [Execute t data]: what [t.Execute(ctx, data)] has written to the
      response and the error it returns, if any;
    - [jsonString s]: the quoted and escaped JSON form of [s]. *)
Record Env := {
  Getenv : string → string;
  db : Database;
  GetObject : string → string → result GetObjectOutput;
  Parse : template → option string;
  Execute : template → tdata → string * option string;
  jsonString : string → string
}.

Definition dq : string := String "034" EmptyString.
Definition newline : string := String "010" EmptyString.

Definition jsonBool (b : bool) : string := if b then "true" else "false".

Section Encode.
Variable env : Env.

Fixpoint jsonMarshal (j : json) : string :=
  match j with
  | JString s => jsonString env s
  | JBool b => jsonBool b
  | JObject fs =>
      "{" +:+ (fix fields (fs : list (string * json)) : string :=
                 match fs with
                 | [] => ""
                 | [(k, v)] => dq +:+ k +:+ dq +:+ ":" +:+ jsonMarshal v
                 | (k, v) :: rest =>
                     dq +:+ k +:+ dq +:+ ":" +:+ jsonMarshal v +:+ "," +:+ fields rest
                 end) fs +:+ "}"
  end.

(** [json.NewEncoder(w).Encode(v)] writes the document and a newline. *)
Definition jsonEncode (j : json) : string := jsonMarshal j +:+ newline.
End Encode.

(** [OEmbedResponse] and [Response] with their field tags, in declaration
    order. *)
Record OEmbedResponse := {
  Version : string;
  Type_ : string;
  Title : string;
  Author : string
}.

Record Response := {
  Success : bool;
  Error : string
}.

Definition json_of_OEmbedResponse (r : OEmbedResponse) : json :=
  JObject [("version", JString (Version r)); ("type", JString (Type_ r));
           ("title", JString (Title r)); ("author_name", JString (Author r))].

Definition json_of_Response (r : Response) : json :=
  JObject [("success", JBool (Success r)); ("error", JString (Error r))].

(* ===================================================================== *)
(** * The request context *)
(* ===================================================================== *)

(** [ctx.Response] as far as the handler touches it.  [RedirectURI]
    records the [uri] handed to [ctx.Redirect] (fasthttp resolves it
    against the request URI when it fills the Location header). *)
Record response := {
  StatusCode : Z;
  RespContentType : string;
  RedirectURI : option string;
  Body : string
}.

(** The part of [*fasthttp.RequestCtx] the handler uses: [ctx.Path()],
    [ctx.Host()] and the response it writes to. *)
Record RequestCtx := {
  Path_ : string;
  Host : string;
  Resp : response
}.

(** The response as fasthttp hands it to the handler: status 200, the
    default content type, no redirect, an empty body. *)
Definition emptyResponse : response :=
  {| StatusCode := 200; RespContentType := "text/plain; charset=utf-8";
     RedirectURI := None; Body := "" |}.

Definition newCtx (path host : string) : RequestCtx :=
  {| Path_ := path; Host := host; Resp := emptyResponse |}.

(** [ctx.SetContentType(t)]; also
    [ctx.Response.Header.SetCanonical("Content-Type", t)]. *)
Definition SetContentType (w : response) (t : string) : response :=
  {| StatusCode := StatusCode w; RespContentType := t;
     RedirectURI := RedirectURI w; Body := Body w |}.

(** [ctx.SetBody(b)]. *)
Definition SetBody (w : response) (b : string) : response :=
  {| StatusCode := StatusCode w; RespContentType := RespContentType w;
     RedirectURI := RedirectURI w; Body := b |}.

(** [ctx.Write(p)], the [io.Writer] of the context: appends to the body. *)
Definition Write (w : response) (p : string) : response :=
  SetBody w (Body w +:+ p).

(** fasthttp keeps the redirect codes and turns any other one into 302. *)
Definition getRedirectStatusCode (statusCode : Z) : Z :=
  if (statusCode =? 301)%Z || (statusCode =? 302)%Z || (statusCode =? 303)%Z
     || (statusCode =? 307)%Z || (statusCode =? 308)%Z
  then statusCode else 302%Z.

(** [ctx.Redirect(uri, statusCode)]. *)
Definition Redirect (w : response) (uri : string) (statusCode : Z) : response :=
  {| StatusCode := getRedirectStatusCode statusCode;
     RespContentType := RespContentType w; RedirectURI := Some uri;
     Body := Body w |}.

(** [ctx.Done()] only returns the context's channel: it has no effect. *)
Definition Done (w : response) : response := w.

(* ===================================================================== *)
(** * Control flow: early returns and panics *)
(* ===================================================================== *)

(** How a run of the handler ends.  [Served] and [Failed] both are plain
    returns of the Go function; [Failed msg] marks the returns that follow
    a [sendErr(ctx, msg)].  [Panicked] is a failed type assertion. *)
Inductive outcome :=
  | Served (w : response)
  | Failed (errMsg : string) (w : response)
  | Panicked.

(** A piece of the handler either goes on with a value or leaves the
    function. *)
Inductive flow (A : Type) :=
  | Next (a : A)
  | Exit (o : outcome).
Arguments Next {A} a.
Arguments Exit {A} o.

(** [flow] is a monad; stdpp's [x ← m; k] is its sequencing. *)
#[global] Instance flow_ret : MRet flow := fun A a => Next a.
#[global] Instance flow_bind : MBind flow := fun A B k m =>
  match m with
  | Next a => k a
  | Exit o => Exit o
  end.

(** The handler's result when control reaches the end of the function. *)
Definition finish (m : flow response) : outcome :=
  match m with
  | Next w => Served w
  | Exit o => o
  end.

(** [v.(string)] and [v.(primitive.M)]: a panic unless the dynamic type
    is the asserted one. *)
Definition assertString (v : option bval) : flow string :=
  match v with
  | Some (BStr s) => Next s
  | _ => Exit Panicked
  end.

Definition assertM (v : option bval) : flow doc :=
  match v with
  | Some (BDoc d) => Next d
  | _ => Exit Panicked
  end.

(** [l[0]]. *)
Definition index0 (l : list string) : flow string :=
  match l with
  | x :: _ => Next x
  | [] => Exit Panicked
  end.

(** U+200B ZERO WIDTH SPACE in UTF-8. *)
Definition zwsp : string := String "226" (String "128" (String "139" EmptyString)).

Definition domainToken : string := "{domain}".

(* ===================================================================== *)
(** * The handler *)
(* ===================================================================== *)

Section Handler.
Variable env : Env.

(** [sendErr]: the JSON content type, then the envelope written to the
    response.  Encoding a [Response] cannot fail, so the [log.Fatal] branch
    is not reached; the same holds for the encoder of line 148. *)
Definition sendErr (ctx : response) (errMsg : string) : response :=
  let ctx := SetContentType ctx "application/json" in
  Write ctx (jsonEncode env (json_of_Response {| Success := false; Error := errMsg |})).

(** [sendErr(ctx, msg); ctx.Done(); return]. *)
Definition fail {A : Type} (ctx : response) (msg : string) : flow A :=
  Exit (Failed msg (Done (sendErr ctx msg))).

(** [case strings.HasSuffix(basePath, ".json")] (lines 134-155). *)
Definition oembedCase (ctx : response) (basePath host : string) : flow response :=
  requestPath ← index0 (Strings.SplitN2 basePath ".json");
  match FindOne (collection (db env)) "filename" (Some (BStr requestPath)) with
  | None => fail ctx "invalid file"
  | Some d =>
      let file := Decode d None in
      embed ← assertM (file !! "embed");
      title ← assertString (embed !! "title");
      let embed := <["title" := BStr (Strings.ReplaceAll title domainToken host)]> embed in
      author ← assertString (embed !! "author");
      let embed := <["author" := BStr (Strings.ReplaceAll author domainToken host)]> embed in
      let ctx := SetContentType ctx "application/json" in
      title ← assertString (embed !! "title");
      author ← assertString (embed !! "author");
      Next (Write ctx (jsonEncode env (json_of_OEmbedResponse
              {| Type_ := "link"; Version := "1.0"; Title := title; Author := author |})))
  end.

(** [case strings.HasPrefix(requestPath, "/s/") && basePath != "s"]
    (lines 156-170). *)
Definition shortlinkCase (ctx : response) (basePath : string) : flow response :=
  match FindOne (shortenerCol (db env)) "shortId" (Some (BStr basePath)) with
  | None => fail ctx "invalid short link"
  | Some d =>
      let shortened := Decode d None in
      destination ← assertString (shortened !! "destination");
      destination ←
        (if negb (Strings.HasPrefix destination "http")
         then d' ← assertString (shortened !! "destination"); Next ("https://" +:+ d')
         else Next destination);
      Next (Done (Redirect ctx destination 301))
  end.

(** The lookup of [file] in the last case (lines 172-192).  After a
    successful [Decode] the map is not nil, so the test of line 179
    always holds. *)
Definition lookupFile (ctx : response) (basePath : string) : flow doc :=
  if Strings.HasSuffix basePath zwsp then
    match FindOne (invisibleURL (db env)) "_id" (Some (BStr basePath)) with
    | None => fail ctx "no invisible url or file was found"
    | Some a =>
        let file := Decode a None in
        match FindOne (collection (db env)) "filename" (file !! "filename") with
        | None => fail ctx "invalid file"
        | Some d => Next (Decode d (Some file))
        end
    end
  else
    match FindOne (collection (db env)) "filename" (Some (BStr basePath)) with
    | None => fail ctx "invalid file"
    | Some d => Next (Decode d None)
    end.

(** [t.Execute(ctx, data)] and the handling of its error (lines 256-261
    and 281-286): the template writes to the response as it runs. *)
Definition executeTemplate (ctx : response) (t : template) (data : tdata)
  : flow response :=
  let ctx := SetContentType ctx "text/html" in
  let '(out, err) := Execute env t data in
  let ctx := Write ctx out in
  match err with
  | Some e => fail ctx e
  | None => Next ctx
  end.

(** The raw answer (lines 264-266 and 289-291). *)
Definition serveRaw (ctx : response) (resp : GetObjectOutput) (body : string)
  : response :=
  let ctx := SetContentType ctx (deref (ContentType resp)) in
  let ctx := SetBody ctx body in
  Done ctx.

(** Parse the template, then execute it (lines 226-261 and 268-286). *)
Definition renderPage (ctx : response) (t : template) (data : tdata) : flow response :=
  match Parse env t with
  | Some e => fail ctx e
  | None => executeTemplate ctx t data
  end.

(** From the domain check to the answer (lines 194-292). *)
Definition serveFile (ctx : response) (host : string) (file : doc) : flow response :=
  _ ← (if is_true (file !! "userOnlyDomain") then
         domain ← assertString (file !! "domain");
         if negb (String.eqb host domain) then fail ctx "invalid file" else Next tt
       else Next tt);
  key ← assertString (file !! "key");
  match GetObject env (Getenv env "S3_BUCKET_NAME") key with
  | Err e => fail ctx e
  | Ok resp =>
  match ReadAll_Body resp with
  | Err e => fail ctx e
  | Ok body =>
      mt ← assertString (file !! "mimetype");
      mimetype ← index0 (Strings.SplitN2 mt "/");
      key ← assertString (file !! "key");
      let cdnURL :=
        Getenv env "S3_ENDPOINT" +:+ "/" +:+ Getenv env "S3_BUCKET_NAME" +:+ "/" +:+ key in
      embed ← assertM (file !! "embed");
      uploader ← assertM (file !! "uploader");
      description ← assertString (embed !! "description");
      let embed :=
        <["description" := BStr (Strings.ReplaceAll description domainToken host)]> embed in
      if is_true (embed !! "enabled") then
        (* the template is parsed before the fields of [data] are read *)
        match Parse env embedTemplate with
        | Some e => fail ctx e
        | None =>
            filename ← assertString (file !! "filename");
            desc ← assertString (embed !! "description");
            color ← assertString (embed !! "color");
            username ← assertString (uploader !! "username");
            name ← assertString (file !! "filename");
            size ← assertString (file !! "size");
            let data :=
              {| FileURL := cdnURL;
                 OEmbedURL := "https://" +:+ host +:+ "/" +:+ filename +:+ ".json";
                 Desc := desc;
                 Color := color;
                 Image := String.eqb mimetype "image";
                 User := username;
                 Name := name;
                 Size := size;
                 Video := String.eqb mimetype "video" |} in
            executeTemplate ctx embedTemplate (EmbedPage data)
        end
      else if is_true (file !! "showLink") then
        if String.eqb mimetype "video" then Next (serveRaw ctx resp body)
        else renderPage ctx showLinkTemplate (ShowLinkPage cdnURL)
      else Next (serveRaw ctx resp body)
  end
  end.

(** [requestHandler].  The handler reads the path and the host of [ctx]
    and writes to its response. *)
Definition requestHandler (ctx : RequestCtx) : outcome :=
  let requestPath := Path_ ctx in
  let basePath := Path.Base requestPath in
  let host := Host ctx in
  let w := Resp ctx in
  if String.eqb requestPath "/" then
    Served (Redirect w "https://higure.wtf" 301)
  else if Strings.HasSuffix basePath ".json" then
    finish (oembedCase w basePath host)
  else if Strings.HasPrefix requestPath "/s/" && negb (String.eqb basePath "s") then
    finish (shortlinkCase w basePath)
  else if negb (String.eqb basePath "") && negb (String.eqb basePath "favicon.ico") then
    finish (file ← lookupFile w basePath; serveFile w host file)
  else
    Served w.

End Handler.

(* ===================================================================== *)
(** * Typed view of a file record *)
(* ===================================================================== *)

(** The fields the handler reads from a document of the files collection,
    with the types its assertions expect. *)
Record FileRecord := {
  filename : string;
  key : string;
  mimetype : string;
  size : string;
  domain : string;
  userOnlyDomain : bool;
  showLink : bool;
  uploader_username : string;
  embed_enabled : bool;
  embed_title : string;
  embed_author : string;
  embed_description : string;
  embed_color : string
}.

(** [carries file r]: the document [file] holds the fields of [r] (and
    possibly others, such as [_id]). *)
Definition carries (file : doc) (r : FileRecord) : Prop :=
  file !! "filename" = Some (BStr (filename r))
  ∧ file !! "key" = Some (BStr (key r))
  ∧ file !! "mimetype" = Some (BStr (mimetype r))
  ∧ file !! "size" = Some (BStr (size r))
  ∧ file !! "domain" = Some (BStr (domain r))
  ∧ file !! "userOnlyDomain" = Some (BBool (userOnlyDomain r))
  ∧ file !! "showLink" = Some (BBool (showLink r))
  ∧ (∃ uploader : doc,
       file !! "uploader" = Some (BDoc uploader)
       ∧ uploader !! "username" = Some (BStr (uploader_username r)))
  ∧ (∃ embed : doc,
       file !! "embed" = Some (BDoc embed)
       ∧ embed !! "enabled" = Some (BBool (embed_enabled r))
       ∧ embed !! "title" = Some (BStr (embed_title r))
       ∧ embed !! "author" = Some (BStr (embed_author r))
       ∧ embed !! "description" = Some (BStr (embed_description r))
       ∧ embed !! "color" = Some (BStr (embed_color r))).

(** The document of a record, as the upload path stores it. *)
Definition doc_of (r : FileRecord) : doc :=
  list_to_map
    [("filename", BStr (filename r)); ("key", BStr (key r));
     ("mimetype", BStr (mimetype r)); ("size", BStr (size r));
     ("domain", BStr (domain r)); ("userOnlyDomain", BBool (userOnlyDomain r));
     ("showLink", BBool (showLink r));
     ("uploader", BDoc (list_to_map [("username", BStr (uploader_username r))]));
     ("embed", BDoc (list_to_map
        [("enabled", BBool (embed_enabled r)); ("title", BStr (embed_title r));
         ("author", BStr (embed_author r));
         ("description", BStr (embed_description r));
         ("color", BStr (embed_color r))]))].

(** [l[0]] as a value, for a list known to be non-empty. *)
Definition first (l : list string) : string :=
  match l with
  | x :: _ => x
  | [] => ""
  end.

(** The mimetype category of line 217: what precedes the first [/]. *)
Definition category (mimetype : string) : string :=
  first (Strings.SplitN2 mimetype "/").

(** The key the oembed case looks up (line 135). *)
Definition oembedKey (basePath : string) : string :=
  first (Strings.SplitN2 basePath ".json").

(** [cdnURL] of line 218. *)
Definition cdnURL (env : Env) (key : string) : string :=
  Getenv env "S3_ENDPOINT" +:+ "/" +:+ Getenv env "S3_BUCKET_NAME" +:+ "/" +:+ key.

(** The data handed to the embed template for a record (lines 244-254). *)
Definition embedPageData (env : Env) (host : string) (r : FileRecord) : EmbedData :=
  {| FileURL := cdnURL env (key r);
     OEmbedURL := "https://" +:+ host +:+ "/" +:+ filename r +:+ ".json";
     Desc := Strings.ReplaceAll (embed_description r) domainToken host;
     Color := embed_color r;
     Image := String.eqb (category (mimetype r)) "image";
     Video := String.eqb (category (mimetype r)) "video";
     User := uploader_username r;
     Size := size r;
     Name := filename r |}.

(** The uniform error envelope as [sendErr] writes it. *)
Definition envelope (env : Env) (msg : string) : string :=
  "{" +:+ dq +:+ "success" +:+ dq +:+ ":false," +:+ dq +:+ "error" +:+ dq +:+ ":"
      +:+ jsonString env msg +:+ "}" +:+ newline.

(** The guards of the [switch] of [requestHandler], in order. *)
Inductive strategy := RootRedirect | OEmbed | ShortLink | FileResolve | NoOp.

Definition classify (requestPath : string) : strategy :=
  let basePath := Path.Base requestPath in
  if String.eqb requestPath "/" then RootRedirect
  else if Strings.HasSuffix basePath ".json" then OEmbed
  else if Strings.HasPrefix requestPath "/s/" && negb (String.eqb basePath "s") then ShortLink
  else if negb (String.eqb basePath "") && negb (String.eqb basePath "favicon.ico")
  then FileResolve
  else NoOp.

(** The same deployment with another content of the files collection. *)
Definition with_collection (env : Env) (col : list doc) : Env :=
  {| Getenv := Getenv env;
     db := {| collection := col; shortenerCol := shortenerCol (db env);
              invisibleURL := invisibleURL (db env) |};
     GetObject := GetObject env; Parse := Parse env; Execute := Execute env;
     jsonString := jsonString env |}.

(** What a client sees of an outcome: the response, or nothing after a
    panic. *)
Definition observe (o : outcome) : option response :=
  match o with
  | Served w => Some w
  | Failed _ w => Some w
  | Panicked => None
  end.

(** [serveFile] read on a typed record: the type assertions are gone, the
    answer is selected by the flags of the record. *)
Definition serveRecord (env : Env) (w : response) (host : string) (r : FileRecord)
  : flow response :=
  if userOnlyDomain r && negb (String.eqb host (domain r)) then fail env w "invalid file"
  else
    match GetObject env (Getenv env "S3_BUCKET_NAME") (key r) with
    | Err e => fail env w e
    | Ok obj =>
    match ReadAll_Body obj with
    | Err e => fail env w e
    | Ok body =>
        if embed_enabled r then
          renderPage env w embedTemplate (EmbedPage (embedPageData env host r))
        else if showLink r then
          if String.eqb (category (mimetype r)) "video" then Next (serveRaw w obj body)
          else renderPage env w showLinkTemplate (ShowLinkPage (cdnURL env (key r)))
        else Next (serveRaw w obj body)
    end
    end.

(** The lookup misses of the handler, with the message each one sends. *)
Inductive lookup_miss (env : Env) (ctx : RequestCtx) : string → Prop :=
  | miss_oembed :
      classify (Path_ ctx) = OEmbed →
      FindOne (collection (db env)) "filename"
        (Some (BStr (oembedKey (Path.Base (Path_ ctx))))) = None →
      lookup_miss env ctx "invalid file"
  | miss_shortlink :
      classify (Path_ ctx) = ShortLink →
      FindOne (shortenerCol (db env)) "shortId"
        (Some (BStr (Path.Base (Path_ ctx)))) = None →
      lookup_miss env ctx "invalid short link"
  | miss_alias :
      classify (Path_ ctx) = FileResolve →
      Strings.HasSuffix (Path.Base (Path_ ctx)) zwsp = true →
      FindOne (invisibleURL (db env)) "_id"
        (Some (BStr (Path.Base (Path_ ctx)))) = None →
      lookup_miss env ctx "no invisible url or file was found"
  | miss_alias_target (a : doc) :
      classify (Path_ ctx) = FileResolve →
      Strings.HasSuffix (Path.Base (Path_ ctx)) zwsp = true →
      FindOne (invisibleURL (db env)) "_id"
        (Some (BStr (Path.Base (Path_ ctx)))) = Some a →
      FindOne (collection (db env)) "filename" (a !! "filename") = None →
      lookup_miss env ctx "invalid file"
  | miss_file :
      classify (Path_ ctx) = FileResolve →
      Strings.HasSuffix (Path.Base (Path_ ctx)) zwsp = false →
      FindOne (collection (db env)) "filename"
        (Some (BStr (Path.Base (Path_ ctx)))) = None →
      lookup_miss env ctx "invalid file".

(** The body of a successful oEmbed answer. *)
Definition oembedBody (env : Env) (title author : string) : string :=
  "{" +:+ dq +:+ "version" +:+ dq +:+ ":" +:+ jsonString env "1.0" +:+ ","
      +:+ dq +:+ "type" +:+ dq +:+ ":" +:+ jsonString env "link" +:+ ","
      +:+ dq +:+ "title" +:+ dq +:+ ":" +:+ jsonString env title +:+ ","
      +:+ dq +:+ "author_name" +:+ dq +:+ ":" +:+ jsonString env author
      +:+ "}" +:+ newline.

(** A file name that, requested as [/f], is looked up as it is: one
    segment, no [.json] or zero-width-space suffix, not the favicon. *)
Definition plain_filename (f : string) : Prop :=
  f ≠ "" ∧ Strings.has_byte "/" f = false
  ∧ Strings.HasSuffix f ".json" = false
  ∧ Strings.HasSuffix f zwsp = false
  ∧ f ≠ "favicon.ico".

(** The answer [w'] that follows a [sendErr(ctx, msg)] on a response that
    started as [w0]: the JSON content type, and a body that ends with the
    envelope, which is either all that was added or comes after what a
    failing template execution had written. *)
Definition error_answer (env : Env) (w0 : response) (msg : string) (w' : response) : Prop :=
  RespContentType w' = "application/json"
  ∧ (Body w' = Body w0 +:+ envelope env msg
     ∨ ∃ t data out,
         Execute env t data = (out, Some msg)
         ∧ Body w' = Body w0 +:+ out +:+ envelope env msg).

(** Every failing exit of a piece of the handler is such an answer. *)
Definition exits_well {A : Type} (env : Env) (w0 : response) (m : flow A) : Prop :=
  ∀ msg w', m = Exit (Failed msg w') → error_answer env w0 msg w'.

(** The fields of [file] that lines 194-292 read. *)
Definition readKeys : list string :=
  ["userOnlyDomain"; "domain"; "key"; "mimetype"; "embed"; "uploader";
   "showLink"; "filename"; "size"].

(* ===================================================================== *)
(** * A small deployment, for the examples *)
(* ===================================================================== *)

Module Demo.

Definition pic : FileRecord :=
  {| filename := "pic.png"; key := "u1/pic.png"; mimetype := "image/png";
     size := "12 KB"; domain := "a.com"; userOnlyDomain := true;
     showLink := false; uploader_username := "alice"; embed_enabled := true;
     embed_title := "{domain} - {domain}"; embed_author := "by {domain}";
     embed_description := "seen on {domain}, not {Domain}";
     embed_color := "#ff0000" |}.

Definition clip : FileRecord :=
  {| filename := "clip.mp4"; key := "u1/clip.mp4"; mimetype := "video/mp4";
     size := "3 MB"; domain := "a.com"; userOnlyDomain := false;
     showLink := true; uploader_username := "bob"; embed_enabled := false;
     embed_title := "t"; embed_author := "a";
     embed_description := "d"; embed_color := "#000000" |}.

Definition data : FileRecord :=
  {| filename := "data.json"; key := "u2/data.json"; mimetype := "application/json";
     size := "1 KB"; domain := "a.com"; userOnlyDomain := false;
     showLink := false; uploader_username := "carol"; embed_enabled := false;
     embed_title := "t"; embed_author := "a";
     embed_description := "d"; embed_color := "#000000" |}.

Definition snap : FileRecord :=
  {| filename := "snap.json.png"; key := "u3/snap.json.png"; mimetype := "image/png";
     size := "40 KB"; domain := "a.com"; userOnlyDomain := false;
     showLink := false; uploader_username := "dave"; embed_enabled := true;
     embed_title := "t"; embed_author := "a";
     embed_description := "d"; embed_color := "#00ff00" |}.

Definition notes : FileRecord :=
  {| filename := "notes.txt"; key := "u4/notes.txt"; mimetype := "text/plain";
     size := "2 KB"; domain := "a.com"; userOnlyDomain := false;
     showLink := false; uploader_username := "erin"; embed_enabled := false;
     embed_title := "t"; embed_author := "a";
     embed_description := "d"; embed_color := "#0000ff" |}.

(** The record [notes] with [showLink] stored as the string "true". *)
Definition quirk : doc := <["showLink" := BStr "true"]> (doc_of notes).

Definition alias (id target : string) : doc :=
  list_to_map [("_id", BStr id); ("filename", BStr target)].

Definition short (id destination : string) : doc :=
  list_to_map [("shortId", BStr id); ("destination", BStr destination)].

Definition database : Database :=
  {| collection := [doc_of pic; doc_of clip; doc_of data; doc_of snap; quirk];
     shortenerCol := [short "ex" "example.com/x"; short "h" "http://example.com/x"];
     invisibleURL := [alias ("abc" +:+ zwsp) "pic.png";
                      alias ("xyz" +:+ zwsp) "data.json";
                      alias ("gone" +:+ zwsp) "missing.png"] |}.

Definition getenv (name : string) : string :=
  if String.eqb name "S3_ENDPOINT" then "https://s3.example"
  else if String.eqb name "S3_BUCKET_NAME" then "higure"
  else "".

(** Every object exists and is ten bytes of octet stream, but the key
    [u1/lost]. *)
Definition getObject (bucket key : string) : result GetObjectOutput :=
  if String.eqb key "u1/lost" then Err "NoSuchKey"
  else Ok {| ContentType := Some "application/octet-stream";
             ReadAll_Body := Ok "0123456789" |}.

(** A template engine that prints the file URL and never fails. *)
Definition execute (t : template) (d : tdata) : string * option string :=
  match d with
  | EmbedPage e => ("<embed " +:+ FileURL e +:+ " " +:+ OEmbedURL e +:+ ">", None)
  | ShowLinkPage u => ("<link " +:+ u +:+ ">", None)
  end.

Definition quote (s : string) : string := dq +:+ s +:+ dq.

Definition env : Env :=
  {| Getenv := getenv; db := database; GetObject := getObject;
     Parse := fun _ => None; Execute := execute; jsonString := quote |}.

(** The same deployment without any file record. *)
Definition envNoFiles : Env := with_collection env [].

End Demo.

(* ===================================================================== *)
(** * Status and redirect of a run; records with missing fields *)
(* ===================================================================== *)

(** The response [w'] has the status code and the redirect of [w0]. *)
Definition keeps_status (w0 w' : response) : Prop :=
  StatusCode w' = StatusCode w0 ∧ RedirectURI w' = RedirectURI w0.

(** Every response a piece of the handler leaves with keeps the status
    of [w0], and the value it goes on with satisfies [Q]. *)
Definition flow_keeps {A : Type} (w0 : response) (Q : A → Prop) (m : flow A) : Prop :=
  match m with
  | Next a => Q a
  | Exit (Served w') => keeps_status w0 w'
  | Exit (Failed _ w') => keeps_status w0 w'
  | Exit Panicked => True
  end.

(** A deployment whose records lack fields and whose collaborators fail. *)
Module Edge.

Definition lost : FileRecord :=
  {| filename := "lost.bin"; key := "u1/lost"; mimetype := "application/zip";
     size := "9 MB"; domain := "a.com"; userOnlyDomain := false;
     showLink := false; uploader_username := "fay"; embed_enabled := false;
     embed_title := "t"; embed_author := "a";
     embed_description := "d"; embed_color := "#000000" |}.

Definition torn : FileRecord :=
  {| filename := "torn.bin"; key := "u1/torn"; mimetype := "application/zip";
     size := "9 MB"; domain := "a.com"; userOnlyDomain := false;
     showLink := false; uploader_username := "fay"; embed_enabled := false;
     embed_title := "t"; embed_author := "a";
     embed_description := "d"; embed_color := "#000000" |}.

Definition page : FileRecord :=
  {| filename := "page.png"; key := "u1/page.png"; mimetype := "image/png";
     size := "1 MB"; domain := "a.com"; userOnlyDomain := false;
     showLink := false; uploader_username := "gil"; embed_enabled := true;
     embed_title := "t"; embed_author := "a";
     embed_description := "d"; embed_color := "#000000" |}.

Definition raw : FileRecord :=
  {| filename := "raw.bin"; key := "u1/raw.bin"; mimetype := "application/zip";
     size := "1 MB"; domain := "a.com"; userOnlyDomain := false;
     showLink := false; uploader_username := "hal"; embed_enabled := false;
     embed_title := "t"; embed_author := "a";
     embed_description := "d"; embed_color := "#000000" |}.

Definition locked : FileRecord :=
  {| filename := "locked.png"; key := "u1/locked.png"; mimetype := "image/png";
     size := "1 MB"; domain := "a.com"; userOnlyDomain := true;
     showLink := false; uploader_username := "ida"; embed_enabled := false;
     embed_title := "my title"; embed_author := "me";
     embed_description := "d"; embed_color := "#000000" |}.

(** [raw] under other names, each without one field. *)
Definition keyless : doc :=
  delete "key" (<["filename" := BStr "keyless.bin"]> (doc_of raw)).
Definition anonymous : doc :=
  delete "uploader" (<["filename" := BStr "anonymous.bin"]> (doc_of raw)).
Definition flat : doc :=
  delete "embed" (<["filename" := BStr "flat.bin"]> (doc_of raw)).
Definition homeless : doc :=
  delete "domain" (<["filename" := BStr "homeless.png"]> (doc_of locked)).

Definition database : Database :=
  {| collection := [doc_of lost; doc_of torn; doc_of page; doc_of raw; doc_of locked;
                    keyless; anonymous; flat; homeless];
     shortenerCol := [list_to_map [("shortId", BStr "bad")];
                      list_to_map [("shortId", BStr "num"); ("destination", BNum 7)];
                      Demo.short "ok" "example.com"];
     invisibleURL := [] |}.

Definition getObject (bucket key : string) : result GetObjectOutput :=
  if String.eqb key "u1/torn"
  then Ok {| ContentType := None; ReadAll_Body := Err "unexpected EOF" |}
  else Demo.getObject bucket key.

Definition env : Env :=
  {| Getenv := Demo.getenv; db := database; GetObject := getObject;
     Parse := fun _ => None; Execute := Demo.execute; jsonString := Demo.quote |}.

End Edge.

(** [carries_fields file embed r]: the document [file] holds the fields of
    [r] other than the three flags, and [embed] is its embedded document.
    Nothing is said of [userOnlyDomain], [showLink] and [embed.enabled]:
    they may be missing or hold any value. *)
Definition carries_fields (file embed : doc) (r : FileRecord) : Prop :=
  file !! "filename" = Some (BStr (filename r))
  ∧ file !! "key" = Some (BStr (key r))
  ∧ file !! "mimetype" = Some (BStr (mimetype r))
  ∧ file !! "size" = Some (BStr (size r))
  ∧ file !! "domain" = Some (BStr (domain r))
  ∧ (∃ uploader : doc,
       file !! "uploader" = Some (BDoc uploader)
       ∧ uploader !! "username" = Some (BStr (uploader_username r)))
  ∧ file !! "embed" = Some (BDoc embed)
  ∧ embed !! "title" = Some (BStr (embed_title r))
  ∧ embed !! "author" = Some (BStr (embed_author r))
  ∧ embed !! "description" = Some (BStr (embed_description r))
  ∧ embed !! "color" = Some (BStr (embed_color r)).

(** The same deployment with other short links and aliases. *)
Definition with_links (env : Env) (shorteners aliases : list doc) : Env :=
  {| Getenv := Getenv env;
     db := {| collection := collection (db env); shortenerCol := shorteners;
              invisibleURL := aliases |};
     GetObject := GetObject env; Parse := Parse env; Execute := Execute env;
     jsonString := jsonString env |}.

(* ===================================================================== *)
(** * Facts about the string functions *)
(* ===================================================================== *)

(** Let [simpl] compute [+:+] on a string that starts with a byte. *)
#[local] Arguments String.append !_ _ / : simpl nomatch.

Section StringFacts.
Import Strings.

Lemma length_app (s t : string) :
  String.length (s +:+ t) = String.length s + String.length t.
Proof. induction s as [|c s IH]; simpl; [done | by rewrite IH]. Qed.

Lemma app_assoc_s (s t u : string) : (s +:+ t) +:+ u = s +:+ t +:+ u.
Proof. induction s as [|c s IH]; simpl; [done | by rewrite IH]. Qed.

Lemma app_empty_r (s : string) : s +:+ "" = s.
Proof. induction s as [|c s IH]; simpl; [done | by rewrite IH]. Qed.

Lemma slice_to_app (p r : string) : slice_to (String.length p) (p +:+ r) = p.
Proof. induction p as [|c p IH]; simpl; [done | by rewrite IH]. Qed.

Lemma slice_from_app (p r : string) (n : nat) :
  slice_from (String.length p + n) (p +:+ r) = slice_from n r.
Proof. induction p as [|c p IH]; simpl; done. Qed.

Lemma slice_from_app0 (p r : string) : slice_from (String.length p) (p +:+ r) = r.
Proof.
  rewrite <- (Nat.add_0_r (String.length p)), slice_from_app. by destruct r.
Qed.

Lemma slice_from_0 (s : string) : slice_from 0 s = s.
Proof. by destruct s. Qed.

Lemma slice_from_slice_from (a b : nat) (s : string) :
  slice_from a (slice_from b s) = slice_from (b + a) s.
Proof.
  revert s; induction b as [|b IH]; intros s; simpl.
  - done.
  - destruct s as [|c s]; [by destruct a | apply IH].
Qed.

Lemma length_slice_from (n : nat) (s : string) :
  String.length (slice_from n s) = String.length s - n.
Proof.
  revert s; induction n as [|n IH]; intros [|c s]; simpl; auto with lia.
Qed.

Lemma slice_to_from (n : nat) (s : string) : slice_to n s +:+ slice_from n s = s.
Proof.
  revert s; induction n as [|n IH]; intros [|c s]; simpl; try done.
  by rewrite IH.
Qed.

Lemma HasPrefix_nil (s : string) : HasPrefix s "" = true.
Proof. done. Qed.

Lemma HasPrefix_empty (d : ascii) (t : string) : HasPrefix "" (String d t) = false.
Proof. done. Qed.

Lemma HasPrefix_cons (c d : ascii) (s t : string) :
  HasPrefix (String c s) (String d t) = Ascii.eqb c d && HasPrefix s t.
Proof.
  unfold HasPrefix; simpl.
  destruct (Ascii.eqb c d), (String.length t <=? String.length s)%nat; done.
Qed.

Lemma HasPrefix_app (p r : string) : HasPrefix (p +:+ r) p = true.
Proof.
  induction p as [|c p IH]; [done|]. simpl.
  by rewrite HasPrefix_cons, Ascii.eqb_refl, IH.
Qed.

Lemma HasPrefix_true (s p : string) :
  HasPrefix s p = true → s = p +:+ slice_from (String.length p) s.
Proof.
  revert s; induction p as [|d p IH]; intros s.
  - by rewrite slice_from_0.
  - destruct s as [|c s]; [done|]. rewrite HasPrefix_cons.
    intros [Hc Hp]%andb_prop. apply Ascii.eqb_eq in Hc as ->.
    simpl. by rewrite <- (IH s Hp).
Qed.

(** An occurrence of [t] that starts inside [q] cannot run over a byte
    that [t] does not contain. *)
Lemma HasPrefix_boundary (c : ascii) (t q r : string) :
  has_byte c t = false →
  HasPrefix (q +:+ String c r) t = true →
  HasPrefix q t = true.
Proof.
  revert q; induction t as [|d t IH]; intros q Hc; [done|].
  simpl in Hc. apply orb_false_elim in Hc as [Hcd Hct].
  destruct q as [|e q]; simpl.
  - by rewrite HasPrefix_cons, Hcd.
  - rewrite !HasPrefix_cons. intros [-> Hq]%andb_prop. simpl. by apply IH.
Qed.

Lemma Index_eq (s substr : string) :
  Index s substr =
    if HasPrefix s substr then Some 0
    else match s with
         | EmptyString => None
         | String _ s' => S <$> Index s' substr
         end.
Proof. by destruct s. Qed.

Lemma Index_None_cons (c : ascii) (s substr : string) :
  Index (String c s) substr = None →
  HasPrefix (String c s) substr = false ∧ Index s substr = None.
Proof.
  rewrite Index_eq. destruct (HasPrefix (String c s) substr); [done|].
  by destruct (Index s substr).
Qed.

(** In [p ++ tok ++ rest] the first occurrence of [tok] is the one
    written out, when [p] has none and the first byte of [tok] does not
    come back in [tok]. *)
Lemma Index_app_token (c : ascii) (t p rest : string) :
  has_byte c t = false →
  Index p (String c t) = None →
  Index (p +:+ String c t +:+ rest) (String c t) = Some (String.length p).
Proof.
  intros Hc. induction p as [|e p IH]; intros Hp.
  - rewrite Index_eq. simpl.
    rewrite HasPrefix_cons, Ascii.eqb_refl. simpl. by rewrite HasPrefix_app.
  - apply Index_None_cons in Hp as [Hpre Hp].
    rewrite Index_eq. simpl.
    destruct (HasPrefix (String e (p +:+ String c (t +:+ rest))) (String c t)) eqn:E.
    + exfalso. rewrite HasPrefix_cons in E, Hpre.
      apply andb_prop in E as [E1 E2].
      rewrite E1 in Hpre. simpl in Hpre.
      by rewrite (HasPrefix_boundary c t p (t +:+ rest) Hc E2) in Hpre.
    + specialize (IH Hp). simpl in IH. by rewrite IH.
Qed.

Lemma Join_cons2 (p q : string) (ps : list string) (sep : string) :
  Join (p :: q :: ps) sep = p +:+ sep +:+ Join (q :: ps) sep.
Proof. done. Qed.

Lemma replace_loop_S (fuel : nat) (s old new : string) :
  replace_loop (S fuel) s old new =
    match Index s old with
    | None => s
    | Some j =>
        slice_to j s +:+ new
          +:+ replace_loop fuel (slice_from (j + String.length old) s) old new
    end.
Proof. done. Qed.

Lemma replace_loop_Join (c : ascii) (t new : string) (ps : list string) :
  has_byte c t = false →
  Forall (fun p => Index p (String c t) = None) ps →
  ∀ fuel, String.length (Join ps (String c t)) ≤ fuel →
  replace_loop fuel (Join ps (String c t)) (String c t) new = Join ps new.
Proof.
  intros Hc Hps. induction Hps as [|p ps Hp Hps IH]; intros fuel Hfuel.
  - by destruct fuel.
  - destruct ps as [|q ps].
    + destruct fuel; [done|]. rewrite replace_loop_S. simpl Join. by rewrite Hp.
    + rewrite !Join_cons2 in *.
      set (J := Join (q :: ps) (String c t)) in *.
      rewrite !length_app in Hfuel.
      assert (String.length (String c t) = S (String.length t)) as Htok by done.
      destruct fuel as [|fuel]; [lia|]. rewrite replace_loop_S.
      rewrite (Index_app_token c t p J Hc Hp), slice_to_app.
      rewrite slice_from_app, slice_from_app0.
      rewrite IH by lia. done.
Qed.

(** What [ReplaceAll] computes: a string cut into pieces at every
    occurrence of the token is put together again with [new] in place of
    each occurrence. *)
Lemma ReplaceAll_Join (c : ascii) (t new : string) (ps : list string) :
  has_byte c t = false →
  Forall (fun p => Index p (String c t) = None) ps →
  ReplaceAll (Join ps (String c t)) (String c t) new = Join ps new.
Proof. intros Hc Hps. by apply replace_loop_Join. Qed.

Lemma HasSuffix_true (s suffix : string) :
  HasSuffix s suffix = true →
  s = slice_to (String.length s - String.length suffix) s +:+ suffix.
Proof.
  unfold HasSuffix. intros [_ H]%andb_prop. apply String.eqb_eq in H.
  rewrite <- (slice_to_from (String.length s - String.length suffix) s) at 1.
  by rewrite H.
Qed.

Lemma HasSuffix_app (p suffix : string) : HasSuffix (p +:+ suffix) suffix = true.
Proof.
  unfold HasSuffix. rewrite length_app.
  replace (String.length p + String.length suffix - String.length suffix)
    with (String.length p) by lia.
  rewrite slice_from_app0, String.eqb_refl.
  apply andb_true_intro; split; [|done]. apply Nat.leb_le; lia.
Qed.

(** Two suffixes of one string: the shorter is a suffix of the longer. *)
Lemma HasSuffix_HasSuffix (s a b : string) :
  HasSuffix s a = true → HasSuffix s b = true →
  String.length b ≤ String.length a →
  HasSuffix a b = true.
Proof.
  unfold HasSuffix.
  intros [La Ha]%andb_prop [Lb Hb]%andb_prop Hlen.
  apply Nat.leb_le in La, Lb. apply String.eqb_eq in Ha, Hb.
  apply andb_true_intro; split; [by apply Nat.leb_le|].
  apply String.eqb_eq.
  transitivity (slice_from (String.length a - String.length b)
                  (slice_from (String.length s - String.length a) s)).
  - by rewrite Ha.
  - rewrite slice_from_slice_from.
    replace (String.length s - String.length a
             + (String.length a - String.length b))
      with (String.length s - String.length b) by lia.
    exact Hb.
Qed.

End StringFacts.

Example Base_file : Path.Base "/pic.png" = "pic.png".
Proof. reflexivity. Qed.

Example Base_root : Path.Base "/" = "/".
Proof. reflexivity. Qed.

Example Base_short : Path.Base "/s/abc" = "abc".
Proof. reflexivity. Qed.

Example Base_trailing_slashes : Path.Base "/a/b//" = "b".
Proof. reflexivity. Qed.

Example SplitN2_json : Strings.SplitN2 "pic.png.json" ".json" = ["pic.png"; ""].
Proof. reflexivity. Qed.

Example SplitN2_mimetype : Strings.SplitN2 "video/mp4" "/" = ["video"; "mp4"].
Proof. reflexivity. Qed.

Example ReplaceAll_twice :
  Strings.ReplaceAll "a {domain} b {domain}" "{domain}" "x.io" = "a x.io b x.io".
Proof. reflexivity. Qed.

Example ReplaceAll_case : Strings.ReplaceAll "{Domain}" "{domain}" "x.io" = "{Domain}".
Proof. reflexivity. Qed.

Example HasSuffix_zwsp : Strings.HasSuffix ("abc" +:+ zwsp) zwsp = true.
Proof. reflexivity. Qed.

(* ===================================================================== *)
(** * Facts about [path.Base] and the store *)
(* ===================================================================== *)

#[local] Arguments Ascii.eqb : simpl never.

Section BaseFacts.
Import Strings Path.

Lemma stripTrailingSlashes_no_slash (f : string) :
  has_byte "/" f = false → stripTrailingSlashes f = f.
Proof.
  induction f as [|c f IH]; [done|]. simpl.
  intros [Hc Hf]%orb_false_elim. rewrite (IH Hf).
  destruct f; [|done]. by rewrite Ascii.eqb_sym, Hc.
Qed.

Lemma LastIndexSlash_no_slash (f : string) :
  has_byte "/" f = false → LastIndexSlash f = None.
Proof.
  induction f as [|c f IH]; [done|]. simpl.
  intros [Hc Hf]%orb_false_elim. by rewrite (IH Hf), Ascii.eqb_sym, Hc.
Qed.

(** The base segment of [/f] is [f] when [f] is a single segment. *)
Lemma Base_single_segment (f : string) :
  f ≠ "" → has_byte "/" f = false → Base (String "/" f) = f.
Proof.
  intros Hne Hf. unfold Base.
  change (String.eqb (String "/" f) "") with false. cbv iota.
  destruct f as [|c f]; [done|].
  assert (stripTrailingSlashes (String "/" (String c f)) = String "/" (String c f))
    as -> by (change (stripTrailingSlashes (String "/" (String c f)))
                with (match stripTrailingSlashes (String c f) with
                      | EmptyString => EmptyString
                      | t => String "/" t
                      end);
              by rewrite (stripTrailingSlashes_no_slash _ Hf)).
  change (LastIndexSlash (String "/" (String c f)))
    with (match LastIndexSlash (String c f) with
          | Some i => Some (S i)
          | None => Some 0
          end).
  by rewrite (LastIndexSlash_no_slash _ Hf).
Qed.

Lemma HasPrefix_slash_s (f : string) :
  has_byte "/" f = false → HasPrefix (String "/" f) "/s/" = false.
Proof.
  intros Hf. rewrite HasPrefix_cons. simpl.
  destruct f as [|c f]; [done|]. rewrite HasPrefix_cons.
  destruct (Ascii.eqb c "s"); [|done]. simpl.
  destruct f as [|d f]; [done|]. rewrite HasPrefix_cons.
  simpl in Hf. apply orb_false_elim in Hf as [_ [Hd _]%orb_false_elim].
  by rewrite Ascii.eqb_sym, Hd.
Qed.

End BaseFacts.

Section StoreFacts.

Lemma FindOne_Some (col : list doc) (k : string) (fv : option bval) (d : doc) :
  FindOne col k fv = Some d → d ∈ col ∧ field_matches (d !! k) fv = true.
Proof.
  unfold FindOne. intros [Hin Hm]%find_some. by rewrite list_elem_of_In.
Qed.

Lemma FindOne_None (col : list doc) (k : string) (fv : option bval) :
  (∀ d, d ∈ col → field_matches (d !! k) fv = false) → FindOne col k fv = None.
Proof.
  unfold FindOne. induction col as [|d col IH]; intros H; [done|]. simpl.
  rewrite (H d) by apply list_elem_of_here.
  apply IH. intros d' Hd'. apply H. by apply list_elem_of_further.
Qed.

Lemma field_matches_str (dv : option bval) (s : string) :
  field_matches dv (Some (BStr s)) = true ↔ dv = Some (BStr s).
Proof. simpl. by rewrite bool_decide_eq_true. Qed.

Lemma Decode_nil (d : doc) : Decode d None = d.
Proof. unfold Decode. simpl. apply (right_id_L ∅ (∪)). Qed.

Lemma Decode_lookup_l (d file : doc) (k : string) (v : bval) :
  d !! k = Some v → Decode d (Some file) !! k = Some v.
Proof. intros H. unfold Decode. simpl. by apply lookup_union_Some_l. Qed.

Lemma Decode_lookup_r (d file : doc) (k : string) :
  d !! k = None → Decode d (Some file) !! k = file !! k.
Proof. intros H. unfold Decode. simpl. by apply lookup_union_r. Qed.

End StoreFacts.

(* ===================================================================== *)
(** * Facts about the handler *)
(* ===================================================================== *)

Ltac carry H :=
  destruct H as
    (Hfilename & Hkey & Hmimetype & Hsize & Hdomain & Huod & HshowLink
     & (uploader & Huploader & Husername)
     & (embed & Hembed & Henabled & Htitle & Hauthor & Hdesc & Hcolor)).

Lemma carries_doc_of (r : FileRecord) : carries (doc_of r) r.
Proof.
  repeat split; try reflexivity.
  - eexists. split; reflexivity.
  - eexists. repeat split; reflexivity.
Qed.

Lemma is_true_false (v : option bval) : v ≠ Some (BBool true) → is_true v = false.
Proof. destruct v as [[s|[]|z| |d]|]; simpl; congruence. Qed.

Section HandlerFacts.
Variable env : Env.

Lemma index0_SplitN2 (s sep : string) :
  index0 (Strings.SplitN2 s sep) = Next (first (Strings.SplitN2 s sep)).
Proof. unfold Strings.SplitN2. by destruct (Strings.Index s sep). Qed.

(** The handler runs the case its guards select. *)
Lemma requestHandler_classify (ctx : RequestCtx) :
  requestHandler env ctx =
    match classify (Path_ ctx) with
    | RootRedirect => Served (Redirect (Resp ctx) "https://higure.wtf" 301)
    | OEmbed => finish (oembedCase env (Resp ctx) (Path.Base (Path_ ctx)) (Host ctx))
    | ShortLink => finish (shortlinkCase env (Resp ctx) (Path.Base (Path_ ctx)))
    | FileResolve =>
        finish (file ← lookupFile env (Resp ctx) (Path.Base (Path_ ctx));
                serveFile env (Resp ctx) (Host ctx) file)
    | NoOp => Served (Resp ctx)
    end.
Proof.
  unfold requestHandler, classify.
  destruct (String.eqb (Path_ ctx) "/"); [done|].
  destruct (Strings.HasSuffix (Path.Base (Path_ ctx)) ".json"); [done|].
  destruct (Strings.HasPrefix (Path_ ctx) "/s/"
            && negb (String.eqb (Path.Base (Path_ ctx)) "s")); [done|].
  by destruct (negb (String.eqb (Path.Base (Path_ ctx)) "")
               && negb (String.eqb (Path.Base (Path_ ctx)) "favicon.ico")).
Qed.

Lemma jsonEncode_Response (msg : string) :
  jsonEncode env (json_of_Response {| Success := false; Error := msg |})
  = envelope env msg.
Proof.
  unfold jsonEncode, json_of_Response, envelope. simpl.
  by rewrite !app_assoc_s.
Qed.

Lemma jsonEncode_OEmbedResponse (title author : string) :
  jsonEncode env (json_of_OEmbedResponse
    {| Version := "1.0"; Type_ := "link"; Title := title; Author := author |})
  = oembedBody env title author.
Proof.
  unfold jsonEncode, json_of_OEmbedResponse, oembedBody. simpl.
  repeat (rewrite !app_assoc_s; simpl). done.
Qed.

Lemma sendErr_eq (w : response) (msg : string) :
  sendErr env w msg =
    {| StatusCode := StatusCode w; RespContentType := "application/json";
       RedirectURI := RedirectURI w; Body := Body w +:+ envelope env msg |}.
Proof.
  unfold sendErr, Write, SetBody, SetContentType. simpl.
  by rewrite jsonEncode_Response.
Qed.

(** On a document that carries a record every type assertion of
    [serveFile] succeeds. *)
Lemma serveFile_carries (w : response) (host : string) (file : doc) (r : FileRecord) :
  carries file r → serveFile env w host file = serveRecord env w host r.
Proof.
  intros H. carry H. unfold serveFile, serveRecord, renderPage.
  rewrite Huod, Hdomain, Hkey, Hmimetype, Hembed, Huploader, HshowLink, Hfilename, Hsize.
  simpl. rewrite index0_SplitN2. simpl. rewrite Hdesc. simpl.
  rewrite lookup_insert_eq, !lookup_insert_ne by done.
  rewrite Henabled, Hcolor, Husername. simpl.
  destruct (userOnlyDomain r); simpl;
    [destruct (negb (String.eqb host (domain r))); simpl; [done|] |];
    (destruct (GetObject env (Getenv env "S3_BUCKET_NAME") (key r)) as [obj|e]; [|done];
     destruct (ReadAll_Body obj) as [body|e]; [|done];
     by destruct (embed_enabled r), (showLink r)).
Qed.

(** The oembed case on a document that carries a record. *)
Lemma oembedCase_carries (w : response) (basePath host : string) (file : doc)
    (r : FileRecord) :
  FindOne (collection (db env)) "filename" (Some (BStr (oembedKey basePath))) = Some file →
  carries file r →
  oembedCase env w basePath host =
    Next (Write (SetContentType w "application/json")
            (oembedBody env
               (Strings.ReplaceAll (embed_title r) domainToken host)
               (Strings.ReplaceAll (embed_author r) domainToken host))).
Proof.
  intros Hfind H. carry H. unfold oembedCase.
  rewrite index0_SplitN2. simpl. fold (oembedKey basePath). rewrite Hfind.
  rewrite Decode_nil, Hembed. simpl. rewrite Htitle. simpl.
  rewrite (lookup_insert_ne _ "title" "author"), Hauthor by done. simpl.
  rewrite (lookup_insert_ne _ "author" "title"), lookup_insert_eq by done. simpl.
  rewrite lookup_insert_eq. simpl.
  by rewrite jsonEncode_OEmbedResponse.
Qed.

(** A successful rendering: the HTML content type and the page. *)
Lemma renderPage_ok (w : response) (t : template) (data : tdata) (page : string) :
  Parse env t = None → Execute env t data = (page, None) →
  renderPage env w t data =
    Next {| StatusCode := StatusCode w; RespContentType := "text/html";
            RedirectURI := RedirectURI w; Body := Body w +:+ page |}.
Proof.
  intros Hp He. unfold renderPage, executeTemplate. by rewrite Hp, He.
Qed.

(** A document that matches an alias by its file name and, merged with
    the alias, has a string as file name: the alias names that string. *)
Lemma matched_filename (d a : doc) (k x : string) :
  field_matches (d !! k) (a !! k) = true →
  (d ∪ a) !! k = Some (BStr x) →
  a !! k = Some (BStr x).
Proof.
  intros Hm Hu. rewrite lookup_union in Hu.
  destruct (a !! k) as [v|] eqn:Ha, (d !! k) as [u|] eqn:Hd;
    cbv [union option_union union_with option_union_with] in Hu;
    [destruct v; simpl in Hm .. | simpl in Hm; destruct u | ];
    try (apply bool_decide_eq_true in Hm); by simplify_eq.
Qed.

(** When the lookup resolves to a record, no other content of the files
    collection that lacks the record's file name resolves. *)
Lemma lookupFile_without (w : response) (basePath : string) (file : doc)
    (r : FileRecord) (col : list doc) :
  lookupFile env w basePath = Next file →
  carries file r →
  (∀ d, d ∈ col → d !! "filename" ≠ Some (BStr (filename r))) →
  lookupFile (with_collection env col) w basePath
  = fail (with_collection env col) w "invalid file".
Proof.
  intros Hl Hc Hcol. destruct Hc as (Hfilename & _).
  assert (FindOne col "filename" (Some (BStr (filename r))) = None) as Hnone.
  { apply FindOne_None. intros d Hd. simpl.
    apply bool_decide_eq_false. by apply Hcol. }
  unfold lookupFile in *. simpl.
  destruct (Strings.HasSuffix basePath zwsp).
  - destruct (FindOne (invisibleURL (db env)) "_id" (Some (BStr basePath)))
      as [a|]; [|done].
    rewrite Decode_nil in *.
    destruct (FindOne (collection (db env)) "filename" (a !! "filename"))
      as [d|] eqn:Hd; [|done].
    injection Hl as <-. apply FindOne_Some in Hd as [_ Hm].
    unfold Decode in Hfilename. simpl in Hfilename.
    by rewrite (matched_filename d a "filename" (filename r) Hm Hfilename), Hnone.
  - destruct (FindOne (collection (db env)) "filename" (Some (BStr basePath)))
      as [d|] eqn:Hd; [|done].
    injection Hl as <-. rewrite Decode_nil in Hfilename.
    apply FindOne_Some in Hd as [_ Hm]. apply field_matches_str in Hm.
    rewrite Hm in Hfilename. injection Hfilename as ->. by rewrite Hnone.
Qed.

(** The answer to a file-resolve request whose record passes the domain
    check and whose object is fetched. *)
Lemma fileResolve_fetched (ctx : RequestCtx) (file : doc) (r : FileRecord)
    (obj : GetObjectOutput) (bytes : string) :
  classify (Path_ ctx) = FileResolve →
  lookupFile env (Resp ctx) (Path.Base (Path_ ctx)) = Next file →
  carries file r →
  (userOnlyDomain r = true → Host ctx = domain r) →
  GetObject env (Getenv env "S3_BUCKET_NAME") (key r) = Ok obj →
  ReadAll_Body obj = Ok bytes →
  requestHandler env ctx =
    if embed_enabled r then
      finish (renderPage env (Resp ctx) embedTemplate
                (EmbedPage (embedPageData env (Host ctx) r)))
    else if showLink r then
      if String.eqb (category (mimetype r)) "video"
      then Served (serveRaw (Resp ctx) obj bytes)
      else finish (renderPage env (Resp ctx) showLinkTemplate
                     (ShowLinkPage (cdnURL env (key r))))
    else Served (serveRaw (Resp ctx) obj bytes).
Proof.
  intros Hcl Hl Hc Hdom Hget Hread.
  rewrite requestHandler_classify, Hcl, Hl. simpl.
  rewrite (serveFile_carries _ _ _ r Hc). unfold serveRecord.
  assert (userOnlyDomain r && negb (String.eqb (Host ctx) (domain r)) = false) as ->.
  { destruct (userOnlyDomain r); [|done].
    rewrite (Hdom eq_refl), String.eqb_refl. done. }
  rewrite Hget, Hread.
  destruct (embed_enabled r); [done|].
  destruct (showLink r); [|done].
  by destruct (String.eqb (category (mimetype r)) "video").
Qed.

End HandlerFacts.

(* ===================================================================== *)
(** * The claims *)
(* ===================================================================== *)

(** C1.  A file-resolve request that resolves to a record with
    [userOnlyDomain = true] from a host other than the record's [domain]
    fails with "invalid file", and the handler answers exactly as it does
    when the files collection holds no record with that file name. *)
Theorem C1_domain_rejection_as_missing_file
    (env : Env) (ctx : RequestCtx) (file : doc) (r : FileRecord) (col : list doc) :
  classify (Path_ ctx) = FileResolve →
  lookupFile env (Resp ctx) (Path.Base (Path_ ctx)) = Next file →
  carries file r →
  userOnlyDomain r = true →
  Host ctx ≠ domain r →
  (∀ d, d ∈ col → d !! "filename" ≠ Some (BStr (filename r))) →
  requestHandler env ctx
    = Failed "invalid file"
        {| StatusCode := StatusCode (Resp ctx); RespContentType := "application/json";
           RedirectURI := RedirectURI (Resp ctx);
           Body := Body (Resp ctx) +:+ envelope env "invalid file" |}
  ∧ requestHandler (with_collection env col) ctx = requestHandler env ctx.
Proof.
  intros Hcl Hl Hc Hu Hh Hcol.
  assert (requestHandler env ctx
          = Failed "invalid file" (sendErr env (Resp ctx) "invalid file")) as E.
  { rewrite requestHandler_classify, Hcl, Hl. simpl.
    rewrite (serveFile_carries env _ _ _ r Hc). unfold serveRecord.
    rewrite Hu. apply String.eqb_neq in Hh. by rewrite Hh. }
  split.
  - by rewrite E, sendErr_eq.
  - rewrite E, requestHandler_classify. simpl. rewrite Hcl.
    by rewrite (lookupFile_without env _ _ file r col Hl Hc Hcol).
Qed.

Lemma C1_witness :
  requestHandler Demo.env (newCtx "/pic.png" "b.com")
    = Failed "invalid file"
        {| StatusCode := 200; RespContentType := "application/json";
           RedirectURI := None;
           Body := "" +:+ envelope Demo.env "invalid file" |}
  ∧ requestHandler (with_collection Demo.env [doc_of Demo.clip]) (newCtx "/pic.png" "b.com")
    = requestHandler Demo.env (newCtx "/pic.png" "b.com").
Proof.
  apply (C1_domain_rejection_as_missing_file Demo.env (newCtx "/pic.png" "b.com")
           (doc_of Demo.pic) Demo.pic [doc_of Demo.clip]).
  - reflexivity.
  - reflexivity.
  - apply carries_doc_of.
  - reflexivity.
  - discriminate.
  - intros d Hd. apply list_elem_of_singleton in Hd. subst d. vm_compute. discriminate.
Defined.

(** C2.  A file-resolve request that passes the domain check and whose
    object is fetched is answered by the first branch that applies: the
    embed page when [embed.enabled], else the raw bytes when [showLink] and
    the category is video, else the show-link page when [showLink], else
    the raw bytes.  The raw answer carries the upstream content type; the
    embed page is rendered from the file URL, the oEmbed URL, the
    description, the colour, the two category booleans, the uploader, the
    size and the name.  A page that the engine renders without error is the
    whole body, served as HTML. *)
Theorem C2_response_branch_order
    (env : Env) (ctx : RequestCtx) (file : doc) (r : FileRecord)
    (obj : GetObjectOutput) (bytes : string) :
  classify (Path_ ctx) = FileResolve →
  lookupFile env (Resp ctx) (Path.Base (Path_ ctx)) = Next file →
  carries file r →
  (userOnlyDomain r = true → Host ctx = domain r) →
  GetObject env (Getenv env "S3_BUCKET_NAME") (key r) = Ok obj →
  ReadAll_Body obj = Ok bytes →
  let w := Resp ctx in
  let raw := {| StatusCode := StatusCode w; RespContentType := deref (ContentType obj);
                RedirectURI := RedirectURI w; Body := bytes |} in
  let embedData :=
    {| FileURL := cdnURL env (key r);
       OEmbedURL := "https://" +:+ Host ctx +:+ "/" +:+ filename r +:+ ".json";
       Desc := Strings.ReplaceAll (embed_description r) "{domain}" (Host ctx);
       Color := embed_color r;
       Image := String.eqb (category (mimetype r)) "image";
       Video := String.eqb (category (mimetype r)) "video";
       User := uploader_username r;
       Size := size r;
       Name := filename r |} in
  requestHandler env ctx =
    (if embed_enabled r then
       finish (renderPage env w embedTemplate (EmbedPage embedData))
     else if showLink r then
       if String.eqb (category (mimetype r)) "video" then Served raw
       else finish (renderPage env w showLinkTemplate (ShowLinkPage (cdnURL env (key r))))
     else Served raw)
  ∧ ∀ t data page,
      Parse env t = None → Execute env t data = (page, None) →
      finish (renderPage env w t data)
      = Served {| StatusCode := StatusCode w; RespContentType := "text/html";
                  RedirectURI := RedirectURI w; Body := Body w +:+ page |}.
Proof.
  intros Hcl Hl Hc Hdom Hget Hread w raw embedData. subst w raw embedData. split.
  - by rewrite (fileResolve_fetched env ctx file r obj bytes Hcl Hl Hc Hdom Hget Hread).
  - intros t data page Hp He. by rewrite (renderPage_ok env _ t data page Hp He).
Qed.

Lemma C2_witness :
  requestHandler Demo.env (newCtx "/clip.mp4" "b.com")
  = Served {| StatusCode := 200; RespContentType := "application/octet-stream";
              RedirectURI := None; Body := "0123456789" |}.
Proof.
  apply (C2_response_branch_order Demo.env (newCtx "/clip.mp4" "b.com")
           (doc_of Demo.clip) Demo.clip
           {| ContentType := Some "application/octet-stream";
              ReadAll_Body := Ok "0123456789" |} "0123456789").
  - reflexivity.
  - reflexivity.
  - apply carries_doc_of.
  - discriminate.
  - reflexivity.
  - reflexivity.
Defined.

(** C3.  The oembed case cuts the base segment at the first [.json], not
    at the trailing one.  The embed page of the file [snap.json.png]
    announces the oEmbed URL [/snap.json.png.json]; on that path the
    handler looks up [snap] and answers "invalid file", although the
    record [snap.json.png] is there. *)
Theorem C3_routing_key_cut_at_first_json :
  OEmbedURL (embedPageData Demo.env "a.com" Demo.snap) = "https://a.com/snap.json.png.json"
  ∧ Strings.HasSuffix (Path.Base "/snap.json.png.json") ".json" = true
  ∧ classify "/snap.json.png.json" = OEmbed
  ∧ oembedKey (Path.Base "/snap.json.png.json") = "snap"
  ∧ FindOne (collection (db Demo.env)) "filename" (Some (BStr "snap")) = None
  ∧ (FindOne (collection (db Demo.env)) "filename" (Some (BStr "snap.json.png"))
     ≫= fun d => d !! "key") = Some (BStr "u3/snap.json.png")
  ∧ requestHandler Demo.env (newCtx "/snap.json.png.json" "a.com")
    = Failed "invalid file"
        {| StatusCode := 200; RespContentType := "application/json";
           RedirectURI := None; Body := envelope Demo.env "invalid file" |}.
Proof. repeat split; vm_compute; reflexivity. Qed.

(** The key is the base segment without its [.json] suffix exactly when
    [.json] does not occur earlier in the segment. *)
Lemma oembedKey_single_json (k : string) :
  Strings.Index k ".json" = None → oembedKey (k +:+ ".json") = k.
Proof.
  intros Hk. unfold oembedKey, Strings.SplitN2.
  rewrite <- (app_empty_r (k +:+ ".json")), app_assoc_s.
  rewrite (Index_app_token "." "json" k "" eq_refl Hk). simpl.
  apply slice_to_app.
Qed.

(** C4.  A shortlink request whose record is found is answered by a 301
    redirect to the record's destination, taken as it is when it begins
    with [http] and prefixed with [https://] otherwise. *)
Theorem C4_shortlink_redirect
    (env : Env) (ctx : RequestCtx) (shortened : doc) (destination : string) :
  classify (Path_ ctx) = ShortLink →
  FindOne (shortenerCol (db env)) "shortId" (Some (BStr (Path.Base (Path_ ctx))))
    = Some shortened →
  shortened !! "destination" = Some (BStr destination) →
  requestHandler env ctx =
    Served {| StatusCode := 301; RespContentType := RespContentType (Resp ctx);
              RedirectURI :=
                Some (if Strings.HasPrefix destination "http" then destination
                      else "https://" +:+ destination);
              Body := Body (Resp ctx) |}.
Proof.
  intros Hcl Hfind Hdest.
  rewrite requestHandler_classify, Hcl. unfold shortlinkCase.
  rewrite Hfind, Decode_nil, Hdest. simpl.
  by destruct (Strings.HasPrefix destination "http").
Qed.

Lemma C4_witness :
  requestHandler Demo.env (newCtx "/s/ex" "a.com")
  = Served {| StatusCode := 301; RespContentType := "text/plain; charset=utf-8";
              RedirectURI := Some "https://example.com/x"; Body := "" |}
  ∧ requestHandler Demo.env (newCtx "/s/h" "a.com")
  = Served {| StatusCode := 301; RespContentType := "text/plain; charset=utf-8";
              RedirectURI := Some "http://example.com/x"; Body := "" |}.
Proof.
  split.
  - apply (C4_shortlink_redirect Demo.env (newCtx "/s/ex" "a.com")
             (Demo.short "ex" "example.com/x") "example.com/x"); reflexivity.
  - apply (C4_shortlink_redirect Demo.env (newCtx "/s/h" "a.com")
             (Demo.short "h" "http://example.com/x") "http://example.com/x"); reflexivity.
Defined.

(** C5.  Cut the title, the author and the description at every
    occurrence of [{domain}].  The oembed answer then carries the title and
    the author put together again with the request host, as it is, in place
    of each occurrence; the embed page of the file-resolve path gets the
    description treated the same way, and every other field of the page
    (file URL, colour, uploader, name, size) as stored. *)
Theorem C5_domain_token_substitution
    (env : Env) (ctx : RequestCtx) (file : doc) (r : FileRecord)
    (titleParts authorParts descParts : list string) :
  carries file r →
  Forall (fun p => Strings.Index p "{domain}" = None) titleParts →
  Forall (fun p => Strings.Index p "{domain}" = None) authorParts →
  Forall (fun p => Strings.Index p "{domain}" = None) descParts →
  embed_title r = Strings.Join titleParts "{domain}" →
  embed_author r = Strings.Join authorParts "{domain}" →
  embed_description r = Strings.Join descParts "{domain}" →
  let host := Host ctx in
  let w := Resp ctx in
  (classify (Path_ ctx) = OEmbed →
   FindOne (collection (db env)) "filename"
     (Some (BStr (oembedKey (Path.Base (Path_ ctx))))) = Some file →
   requestHandler env ctx =
     Served (Write (SetContentType w "application/json")
               (oembedBody env (Strings.Join titleParts host)
                               (Strings.Join authorParts host))))
  ∧ (classify (Path_ ctx) = FileResolve →
     lookupFile env w (Path.Base (Path_ ctx)) = Next file →
     (userOnlyDomain r = true → host = domain r) →
     (∃ obj bytes, GetObject env (Getenv env "S3_BUCKET_NAME") (key r) = Ok obj
                   ∧ ReadAll_Body obj = Ok bytes) →
     embed_enabled r = true →
     requestHandler env ctx =
       finish (renderPage env w embedTemplate
                 (EmbedPage
                    {| FileURL := cdnURL env (key r);
                       OEmbedURL := "https://" +:+ host +:+ "/" +:+ filename r +:+ ".json";
                       Desc := Strings.Join descParts host;
                       Color := embed_color r;
                       Image := String.eqb (category (mimetype r)) "image";
                       Video := String.eqb (category (mimetype r)) "video";
                       User := uploader_username r;
                       Size := size r;
                       Name := filename r |}))).
Proof.
  intros Hc Ht Ha Hd Etitle Eauthor Edesc host w. subst host w. split.
  - intros Hcl Hfind. rewrite requestHandler_classify, Hcl.
    rewrite (oembedCase_carries env _ _ _ file r Hfind Hc).
    rewrite Etitle, Eauthor. unfold domainToken.
    by rewrite !ReplaceAll_Join.
  - intros Hcl Hl Hdom (obj & bytes & Hget & Hread) Hen.
    rewrite (fileResolve_fetched env ctx file r obj bytes Hcl Hl Hc Hdom Hget Hread).
    rewrite Hen. unfold embedPageData, domainToken.
    by rewrite Edesc, ReplaceAll_Join.
Qed.

Lemma C5_witness :
  requestHandler Demo.env (newCtx "/pic.png.json" "b.com") =
    Served (Write (SetContentType emptyResponse "application/json")
              (oembedBody Demo.env "b.com - b.com" "by b.com"))
  ∧ requestHandler Demo.env (newCtx "/pic.png" "a.com") =
      finish (renderPage Demo.env emptyResponse embedTemplate
                (EmbedPage
                   {| FileURL := "https://s3.example/higure/u1/pic.png";
                      OEmbedURL := "https://a.com/pic.png.json";
                      Desc := "seen on a.com, not {Domain}";
                      Color := "#ff0000";
                      Image := true;
                      Video := false;
                      User := "alice";
                      Size := "12 KB";
                      Name := "pic.png" |})).
Proof.
  split.
  - apply (C5_domain_token_substitution Demo.env (newCtx "/pic.png.json" "b.com")
             (doc_of Demo.pic) Demo.pic [""; " - "; ""] ["by "; ""]
             ["seen on "; ", not {Domain}"]);
      try reflexivity; try apply carries_doc_of;
      repeat constructor.
  - apply (C5_domain_token_substitution Demo.env (newCtx "/pic.png" "a.com")
             (doc_of Demo.pic) Demo.pic [""; " - "; ""] ["by "; ""]
             ["seen on "; ", not {Domain}"]);
      try reflexivity; try apply carries_doc_of;
      try (repeat constructor; fail).
    eexists _, _. split; reflexivity.
Defined.

(** C9.  A successful oembed request is answered with the JSON content
    type and a body that is the object of the four fields [version] = 1.0,
    [type] = link, [title] and [author_name], the last two being the stored
    title and author with the host substituted, followed by a newline. *)
Theorem C9_oembed_document
    (env : Env) (ctx : RequestCtx) (file : doc) (r : FileRecord) :
  classify (Path_ ctx) = OEmbed →
  FindOne (collection (db env)) "filename"
    (Some (BStr (oembedKey (Path.Base (Path_ ctx))))) = Some file →
  carries file r →
  let title := Strings.ReplaceAll (embed_title r) "{domain}" (Host ctx) in
  let author := Strings.ReplaceAll (embed_author r) "{domain}" (Host ctx) in
  requestHandler env ctx =
    Served {| StatusCode := StatusCode (Resp ctx);
              RespContentType := "application/json";
              RedirectURI := RedirectURI (Resp ctx);
              Body := Body (Resp ctx)
                +:+ jsonEncode env
                      (JObject [("version", JString "1.0"); ("type", JString "link");
                                ("title", JString title);
                                ("author_name", JString author)]) |}
  ∧ jsonEncode env
      (JObject [("version", JString "1.0"); ("type", JString "link");
                ("title", JString title); ("author_name", JString author)])
    = "{" +:+ dq +:+ "version" +:+ dq +:+ ":" +:+ jsonString env "1.0" +:+ ","
          +:+ dq +:+ "type" +:+ dq +:+ ":" +:+ jsonString env "link" +:+ ","
          +:+ dq +:+ "title" +:+ dq +:+ ":" +:+ jsonString env title +:+ ","
          +:+ dq +:+ "author_name" +:+ dq +:+ ":" +:+ jsonString env author
          +:+ "}" +:+ newline.
Proof.
  intros Hcl Hfind Hc title author. subst title author.
  assert (∀ t a, jsonEncode env
      (JObject [("version", JString "1.0"); ("type", JString "link");
                ("title", JString t); ("author_name", JString a)])
      = oembedBody env t a) as E
    by (intros t a; apply (jsonEncode_OEmbedResponse env t a)).
  split.
  - rewrite requestHandler_classify, Hcl.
    rewrite (oembedCase_carries env _ _ _ file r Hfind Hc). by rewrite E.
  - by rewrite E.
Qed.

Lemma C9_witness :
  requestHandler Demo.env (newCtx "/pic.png.json" "b.com") =
    Served {| StatusCode := 200; RespContentType := "application/json";
              RedirectURI := None;
              Body := "" +:+ jsonEncode Demo.env
                (JObject [("version", JString "1.0"); ("type", JString "link");
                          ("title", JString "b.com - b.com");
                          ("author_name", JString "by b.com")]) |}.
Proof.
  apply (C9_oembed_document Demo.env (newCtx "/pic.png.json" "b.com")
           (doc_of Demo.pic) Demo.pic).
  - reflexivity.
  - reflexivity.
  - apply carries_doc_of.
Defined.

(* ===================================================================== *)
(** * The error exits of the handler *)
(* ===================================================================== *)

Section Exits.
Variable env : Env.
Variable w0 : response.

Lemma exits_well_Next {A : Type} (a : A) : exits_well env w0 (Next a).
Proof. by intros msg w' H. Qed.

Lemma exits_well_Panicked {A : Type} : exits_well env w0 (@Exit A Panicked).
Proof. by intros msg w' H. Qed.

Lemma exits_well_fail {A : Type} (msg : string) : exits_well env w0 (@fail env A w0 msg).
Proof.
  intros msg' w' H. unfold fail, Done in H. injection H as <- <-.
  rewrite sendErr_eq. split; [done|]. by left.
Qed.

Lemma exits_well_bind {A B : Type} (m : flow A) (k : A → flow B) :
  exits_well env w0 m → (∀ a, exits_well env w0 (k a)) → exits_well env w0 (m ≫= k).
Proof.
  intros Hm Hk msg w' H. destruct m as [a|o]; unfold mbind, flow_bind in H.
  - by apply (Hk a).
  - injection H as ->. by apply (Hm msg w').
Qed.

Lemma exits_well_assertString (v : option bval) : exits_well env w0 (assertString v).
Proof. by destruct v as [[]|]. Qed.

Lemma exits_well_assertM (v : option bval) : exits_well env w0 (assertM v).
Proof. by destruct v as [[]|]. Qed.

Lemma exits_well_index0 (l : list string) : exits_well env w0 (index0 l).
Proof. by destruct l. Qed.

(** A failing execution leaves what it wrote in front of the envelope. *)
Lemma exits_well_executeTemplate (t : template) (data : tdata) :
  exits_well env w0 (executeTemplate env w0 t data).
Proof.
  intros msg w' H. unfold executeTemplate in H.
  destruct (Execute env t data) as [out [e|]] eqn:E; [|done].
  unfold fail, Done in H. injection H as <- <-.
  rewrite sendErr_eq. split; [done|]. right. exists t, data, out.
  split; [done|]. simpl. by rewrite app_assoc_s.
Qed.

Lemma exits_well_renderPage (t : template) (data : tdata) :
  exits_well env w0 (renderPage env w0 t data).
Proof.
  unfold renderPage. destruct (Parse env t).
  - apply exits_well_fail.
  - apply exits_well_executeTemplate.
Qed.

Ltac exits :=
  repeat first
    [ apply exits_well_Next
    | apply exits_well_Panicked
    | apply exits_well_fail
    | apply exits_well_assertString
    | apply exits_well_assertM
    | apply exits_well_index0
    | apply exits_well_executeTemplate
    | apply exits_well_renderPage
    | apply exits_well_bind; [|intros ?]
    | match goal with
      | |- exits_well _ _ (match ?x with _ => _ end) => destruct x
      end ].

Lemma exits_well_oembedCase (basePath host : string) :
  exits_well env w0 (oembedCase env w0 basePath host).
Proof. unfold oembedCase. exits. Qed.

Lemma exits_well_shortlinkCase (basePath : string) :
  exits_well env w0 (shortlinkCase env w0 basePath).
Proof. unfold shortlinkCase. exits. Qed.

Lemma exits_well_lookupFile (basePath : string) :
  exits_well env w0 (lookupFile env w0 basePath).
Proof. unfold lookupFile. exits. Qed.

Lemma exits_well_serveFile (host : string) (file : doc) :
  exits_well env w0 (serveFile env w0 host file).
Proof. unfold serveFile. exits. Qed.

Lemma finish_Failed (m : flow response) (msg : string) (w' : response) :
  finish m = Failed msg w' → m = Exit (Failed msg w').
Proof. destruct m; simpl; congruence. Qed.

End Exits.

(** Every failing run of the handler ends in such an answer. *)
Lemma requestHandler_error_answer (env : Env) (ctx : RequestCtx) (msg : string)
    (w' : response) :
  requestHandler env ctx = Failed msg w' → error_answer env (Resp ctx) msg w'.
Proof.
  rewrite requestHandler_classify.
  destruct (classify (Path_ ctx)); try done; intros H%finish_Failed; revert H.
  - apply exits_well_oembedCase.
  - apply exits_well_shortlinkCase.
  - apply exits_well_bind; [apply exits_well_lookupFile|].
    intros file. apply exits_well_serveFile.
Qed.

(* ===================================================================== *)
(** * Alias and direct requests *)
(* ===================================================================== *)

Section AliasFacts.
Import Strings.
Variable env : Env.

(** [serveFile] depends on the document through the fields it reads. *)
Lemma serveFile_ext (w : response) (host : string) (f1 f2 : doc) :
  (∀ k, k ∈ readKeys → f1 !! k = f2 !! k) →
  serveFile env w host f1 = serveFile env w host f2.
Proof.
  intros H. unfold serveFile.
  assert (∀ k, bool_decide (k ∈ readKeys) = true → f1 !! k = f2 !! k) as H'
    by (intros k Hk; apply H; by apply bool_decide_eq_true in Hk).
  rewrite (H' "userOnlyDomain"), (H' "domain"), (H' "key"), (H' "mimetype"),
    (H' "embed"), (H' "uploader"), (H' "showLink"), (H' "filename"), (H' "size")
    by reflexivity.
  done.
Qed.

(** A request for [/s] with [s] a single segment is a file-resolve
    request for [s], unless [s] ends in [.json] or is the favicon. *)
Lemma classify_single_segment (s : string) :
  s ≠ "" → has_byte "/" s = false → HasSuffix s ".json" = false →
  s ≠ "favicon.ico" →
  Path.Base (String "/" s) = s ∧ classify (String "/" s) = FileResolve.
Proof.
  intros Hne Hslash Hjson Hfav.
  pose proof (Base_single_segment s Hne Hslash) as HB. split; [done|].
  unfold classify. rewrite HB, Hjson, (HasPrefix_slash_s s Hslash).
  apply String.eqb_neq in Hne, Hfav. rewrite Hne, Hfav.
  by destruct s.
Qed.

(** A segment that ends with the zero width space does not end in
    [.json], and is neither empty nor the favicon. *)
Lemma zwsp_suffix (s : string) :
  HasSuffix s zwsp = true →
  s ≠ "" ∧ HasSuffix s ".json" = false ∧ s ≠ "favicon.ico".
Proof.
  intros Hz. repeat split.
  - by intros ->.
  - destruct (HasSuffix s ".json") eqn:Hj; [|done].
    by pose proof (HasSuffix_HasSuffix s ".json" zwsp Hj Hz ltac:(simpl; lia)).
  - by intros ->.
Qed.

(** The alias lookup and the direct lookup end in documents that
    [serveFile] cannot tell apart, when the alias record has no other
    field than [_id] and [filename]. *)
Lemma alias_as_direct (w : response) (host aliasId f : string) (a d : doc) :
  HasSuffix aliasId zwsp = true →
  FindOne (invisibleURL (db env)) "_id" (Some (BStr aliasId)) = Some a →
  a !! "filename" = Some (BStr f) →
  (∀ k, k ≠ "_id" → k ≠ "filename" → a !! k = None) →
  FindOne (collection (db env)) "filename" (Some (BStr f)) = Some d →
  HasSuffix f zwsp = false →
  (file ← lookupFile env w aliasId; serveFile env w host file)
  = (file ← lookupFile env w f; serveFile env w host file).
Proof.
  intros Hz Ha Hf Hother Hd Hfz. unfold lookupFile.
  rewrite Hz, Ha, Decode_nil, Hf, Hd, Hfz, Decode_nil. simpl.
  apply serveFile_ext. intros k Hk.
  apply FindOne_Some in Hd as [_ Hm%field_matches_str].
  destruct (decide (k = "filename")) as [->|Hne].
  - rewrite Hm. by apply Decode_lookup_l.
  - unfold Decode. simpl. apply lookup_union_l, Hother; [|done].
    intros ->. apply (bool_decide_eq_true_2 ("_id" ∈ readKeys)) in Hk. discriminate Hk.
Qed.

End AliasFacts.

(** C6, as it is written, fails for a file whose name ends in [.json]:
    the alias [xyz] + U+200B of the record [data.json] answers with the
    file, the path [/data.json] is taken for an oEmbed request and answers
    "invalid file". *)
Lemma C6_counterexample :
  (FindOne (invisibleURL (db Demo.env)) "_id" (Some (BStr ("xyz" +:+ zwsp)))
     ≫= fun a => a !! "filename") = Some (BStr "data.json")
  ∧ (FindOne (collection (db Demo.env)) "filename" (Some (BStr "data.json"))
       ≫= fun d => d !! "key") = Some (BStr "u2/data.json")
  ∧ requestHandler Demo.env (newCtx ("/" +:+ "xyz" +:+ zwsp) "a.com")
    = Served {| StatusCode := 200; RespContentType := "application/octet-stream";
                RedirectURI := None; Body := "0123456789" |}
  ∧ requestHandler Demo.env (newCtx ("/" +:+ "data.json") "a.com")
    = Failed "invalid file"
        {| StatusCode := 200; RespContentType := "application/json";
           RedirectURI := None; Body := envelope Demo.env "invalid file" |}
  ∧ requestHandler Demo.env (newCtx ("/" +:+ "xyz" +:+ zwsp) "a.com")
    ≠ requestHandler Demo.env (newCtx ("/" +:+ "data.json") "a.com").
Proof. repeat split; vm_compute; try reflexivity. discriminate. Qed.

(** C7.  A lookup miss is answered with the envelope of its fixed message
    and the JSON content type, and the handler returns without a panic. *)
Theorem C7_lookup_miss_envelope (env : Env) (ctx : RequestCtx) (msg : string) :
  lookup_miss env ctx msg →
  requestHandler env ctx
    = Failed msg
        {| StatusCode := StatusCode (Resp ctx); RespContentType := "application/json";
           RedirectURI := RedirectURI (Resp ctx);
           Body := Body (Resp ctx)
             +:+ "{" +:+ dq +:+ "success" +:+ dq +:+ ":false,"
             +:+ dq +:+ "error" +:+ dq +:+ ":" +:+ jsonString env msg +:+ "}" +:+ newline |}
  ∧ (msg = "invalid file" ∨ msg = "invalid short link"
     ∨ msg = "no invisible url or file was found").
Proof.
  intros H. fold (envelope env msg). rewrite <- sendErr_eq.
  destruct H as [Hcl Hfind | Hcl Hfind | Hcl Hz Hfind | a Hcl Hz Ha Hfind | Hcl Hz Hfind];
    (split; [|tauto]);
    rewrite requestHandler_classify, Hcl.
  - unfold oembedCase. rewrite index0_SplitN2. simpl.
    fold (oembedKey (Path.Base (Path_ ctx))). by rewrite Hfind.
  - unfold shortlinkCase. by rewrite Hfind.
  - unfold lookupFile. by rewrite Hz, Hfind.
  - unfold lookupFile. by rewrite Hz, Ha, Decode_nil, Hfind.
  - unfold lookupFile. by rewrite Hz, Hfind.
Qed.

Lemma C7_witness :
  requestHandler Demo.env (newCtx "/s/zz" "a.com")
    = Failed "invalid short link"
        {| StatusCode := 200; RespContentType := "application/json";
           RedirectURI := None;
           Body := ""
             +:+ "{" +:+ dq +:+ "success" +:+ dq +:+ ":false,"
             +:+ dq +:+ "error" +:+ dq +:+ ":" +:+ jsonString Demo.env "invalid short link"
             +:+ "}" +:+ newline |}.
Proof.
  apply (C7_lookup_miss_envelope Demo.env (newCtx "/s/zz" "a.com") "invalid short link").
  apply miss_shortlink; reflexivity.
Defined.

(* ===================================================================== *)
(** * The handler on the small deployment *)
(* ===================================================================== *)

Example root_redirect :
  requestHandler Demo.env (newCtx "/" "a.com")
  = Served {| StatusCode := 301; RespContentType := "text/plain; charset=utf-8";
              RedirectURI := Some "https://higure.wtf"; Body := "" |}.
Proof. vm_compute. reflexivity. Qed.

Example favicon_untouched :
  requestHandler Demo.env (newCtx "/favicon.ico" "a.com") = Served emptyResponse.
Proof. vm_compute. reflexivity. Qed.

Example embed_page :
  requestHandler Demo.env (newCtx "/pic.png" "a.com")
  = Served {| StatusCode := 200; RespContentType := "text/html"; RedirectURI := None;
              Body := "<embed https://s3.example/higure/u1/pic.png https://a.com/pic.png.json>" |}.
Proof. vm_compute. reflexivity. Qed.

Example show_link_string_is_not_true :
  requestHandler Demo.env (newCtx "/notes.txt" "a.com")
  = Served {| StatusCode := 200; RespContentType := "application/octet-stream";
              RedirectURI := None; Body := "0123456789" |}.
Proof. vm_compute. reflexivity. Qed.

Example alias_without_target :
  requestHandler Demo.env (newCtx ("/gone" +:+ zwsp) "a.com")
  = Failed "invalid file" (sendErr Demo.env emptyResponse "invalid file").
Proof. vm_compute. reflexivity. Qed.

(* ===================================================================== *)
(** * Routing: which case a path selects, and with which key *)
(* ===================================================================== *)

Section Routing.
Import Strings Path.

Lemma stripTrailingSlashes_app (d g : string) :
  g ≠ "" → stripTrailingSlashes g = g → stripTrailingSlashes (d +:+ g) = d +:+ g.
Proof.
  intros Hg Hs. induction d as [|c d IH]; [done|].
  change (String c d +:+ g) with (String c (d +:+ g)).
  change (stripTrailingSlashes (String c (d +:+ g)))
    with (match stripTrailingSlashes (d +:+ g) with
          | EmptyString => if Ascii.eqb c "/" then EmptyString else String c EmptyString
          | t => String c t
          end).
  rewrite IH. destruct d; [by destruct g | done].
Qed.

Lemma LastIndexSlash_app (d f : string) :
  has_byte "/" f = false →
  LastIndexSlash (d +:+ String "/" f) = Some (String.length d).
Proof.
  intros Hf. induction d as [|c d IH].
  - change (LastIndexSlash ("" +:+ String "/" f))
      with (match LastIndexSlash f with
            | Some i => Some (S i)
            | None => Some 0
            end).
    by rewrite (LastIndexSlash_no_slash f Hf).
  - change (LastIndexSlash (String c d +:+ String "/" f))
      with (match LastIndexSlash (d +:+ String "/" f) with
            | Some i => Some (S i)
            | None => if Ascii.eqb c "/" then Some 0 else None
            end).
    by rewrite IH.
Qed.

(** The base segment of [d/f] is [f], whatever the directory part [d]. *)
Lemma Base_last_segment (d f : string) :
  f ≠ "" → has_byte "/" f = false → Base (d +:+ String "/" f) = f.
Proof.
  intros Hne Hf. unfold Base.
  assert (String.eqb (d +:+ String "/" f) "" = false) as ->
    by (apply String.eqb_neq; by destruct d).
  rewrite stripTrailingSlashes_app.
  - rewrite (LastIndexSlash_app d f Hf).
    replace (String.length d + 1) with (String.length d + 1 + 0) by lia.
    rewrite <- Nat.add_assoc, slice_from_app. simpl.
    apply String.eqb_neq in Hne. by rewrite Hne.
  - done.
  - change (stripTrailingSlashes (String "/" f))
      with (match stripTrailingSlashes f with
            | EmptyString => EmptyString
            | t => String "/" t
            end).
    rewrite (stripTrailingSlashes_no_slash f Hf). by destruct f.
Qed.

Lemma Base_nonempty (p : string) : Base p ≠ "".
Proof.
  unfold Base. destruct (String.eqb p ""); [done|].
  match goal with |- (if String.eqb ?x "" then _ else _) ≠ _ =>
    destruct (String.eqb x "") eqn:E; [done | by apply String.eqb_neq] end.
Qed.

(** The case depends on the path through its base segment, on whether it
    is [/] and on whether it starts with [/s/]. *)
Lemma classify_ext (p q : string) :
  Base p = Base q →
  String.eqb p "/" = String.eqb q "/" →
  HasPrefix p "/s/" = HasPrefix q "/s/" →
  classify p = classify q.
Proof. intros HB He Hp. unfold classify. by rewrite HB, He, Hp. Qed.

End Routing.

(** X1.  Only the last segment of the path counts: a request for [d/f],
    with any directory part [d] that does not put the path under [/s/], is
    answered as the request for [/f]. *)
Theorem X1_directories_ignored (env : Env) (host d f : string) :
  f ≠ "" →
  Strings.has_byte "/" f = false →
  Strings.HasPrefix (d +:+ "/" +:+ f) "/s/" = false →
  requestHandler env (newCtx (d +:+ "/" +:+ f) host)
  = requestHandler env (newCtx ("/" +:+ f) host).
Proof.
  intros Hne Hf Hs.
  change (d +:+ "/" +:+ f) with (d +:+ String "/" f) in *.
  change ("/" +:+ f) with ("" +:+ String "/" f).
  assert (classify (d +:+ String "/" f) = classify ("" +:+ String "/" f)) as Hc.
  { apply classify_ext.
    - by rewrite !Base_last_segment.
    - transitivity false; [|symmetry]; apply String.eqb_neq.
      + intros E. apply (f_equal String.length) in E. rewrite length_app in E.
        destruct f; [done|]. simpl in E. lia.
      + by destruct f.
    - rewrite Hs. symmetry. by apply HasPrefix_slash_s. }
  rewrite !requestHandler_classify. cbn [newCtx Path_ Host Resp].
  by rewrite Hc, !Base_last_segment.
Qed.

Lemma X1_witness :
  requestHandler Demo.env (newCtx ("/img/2024" +:+ "/" +:+ "pic.png") "a.com")
  = requestHandler Demo.env (newCtx ("/" +:+ "pic.png") "a.com").
Proof.
  apply (X1_directories_ignored Demo.env "a.com" "/img/2024" "pic.png").
  - discriminate.
  - reflexivity.
  - reflexivity.
Defined.

(** X3.  The last case does nothing only for [favicon.ico]: the base
    segment is never empty, so the test [basePath != ""] always holds.  A
    path is left without an answer exactly when its base segment is
    [favicon.ico] and it is not under [/s/]; there the response is left as
    it was. *)
Theorem X3_noop_is_favicon (env : Env) (ctx : RequestCtx) :
  Path.Base (Path_ ctx) ≠ ""
  ∧ (classify (Path_ ctx) = NoOp
     ↔ Path.Base (Path_ ctx) = "favicon.ico"
       ∧ Strings.HasPrefix (Path_ ctx) "/s/" = false)
  ∧ (classify (Path_ ctx) = NoOp → requestHandler env ctx = Served (Resp ctx)).
Proof.
  split; [apply Base_nonempty|]. split.
  - unfold classify. split.
    + destruct (String.eqb (Path_ ctx) "/"); [done|].
      destruct (Strings.HasSuffix (Path.Base (Path_ ctx)) ".json"); [done|].
      destruct (Strings.HasPrefix (Path_ ctx) "/s/") eqn:Hs; simpl.
      * destruct (String.eqb (Path.Base (Path_ ctx)) "s") eqn:Es; simpl; [|done].
        apply String.eqb_eq in Es. by rewrite Es.
      * pose proof (Base_nonempty (Path_ ctx)) as Hne. apply String.eqb_neq in Hne.
        rewrite Hne. simpl.
        destruct (String.eqb (Path.Base (Path_ ctx)) "favicon.ico") eqn:Ef; [|done].
        by apply String.eqb_eq in Ef.
    + intros [HB Hs]. destruct (String.eqb (Path_ ctx) "/") eqn:E.
      * apply String.eqb_eq in E. rewrite E in HB. discriminate HB.
      * by rewrite HB, Hs.
  - intros Hc. by rewrite requestHandler_classify, Hc.
Qed.

(** X4.  A path [/s/id] whose [id] is a single segment other than [s]
    that does not end in [.json] is a short link request for [id]; the
    handler answers it from the shorteners collection alone. *)
Theorem X4_shortlink_key (env : Env) (host id : string) :
  id ≠ "" →
  Strings.has_byte "/" id = false →
  Strings.HasSuffix id ".json" = false →
  id ≠ "s" →
  classify ("/s/" +:+ id) = ShortLink
  ∧ Path.Base ("/s/" +:+ id) = id
  ∧ requestHandler env (newCtx ("/s/" +:+ id) host)
    = finish (shortlinkCase env emptyResponse id).
Proof.
  intros Hne Hf Hj Hs.
  assert (Path.Base ("/s/" +:+ id) = id) as HB
    by (change ("/s/" +:+ id) with ("/s" +:+ String "/" id);
        by apply Base_last_segment).
  assert (classify ("/s/" +:+ id) = ShortLink) as Hc.
  { unfold classify. rewrite HB, Hj, HasPrefix_app.
    apply String.eqb_neq in Hs. by rewrite Hs. }
  repeat split; [done..|].
  rewrite requestHandler_classify. cbn [newCtx Path_ Host Resp]. by rewrite Hc, HB.
Qed.

Lemma X4_witness :
  classify ("/s/" +:+ "ex") = ShortLink
  ∧ Path.Base ("/s/" +:+ "ex") = "ex"
  ∧ requestHandler Demo.env (newCtx ("/s/" +:+ "ex") "a.com")
    = finish (shortlinkCase Demo.env emptyResponse "ex").
Proof.
  apply (X4_shortlink_key Demo.env "a.com" "ex"); (discriminate || reflexivity).
Defined.

(* ===================================================================== *)
(** * The key of the oEmbed lookup *)
(* ===================================================================== *)

Section FirstOccurrence.
Import Strings.

Lemma HasPrefix_slice_to (n : nat) (s sep : string) :
  HasPrefix (slice_to n s) sep = true → HasPrefix s sep = true.
Proof.
  revert n s; induction sep as [|d sep IH]; intros n s; [done|].
  destruct n as [|n], s as [|c s]; try done. simpl.
  rewrite !HasPrefix_cons. intros [-> H]%andb_prop. simpl. by apply (IH n).
Qed.

(** [s] is cut at the first occurrence: what precedes it, the separator,
    what follows. *)
Lemma Index_Some_split (s sep : string) (i : nat) :
  Index s sep = Some i →
  s = slice_to i s +:+ sep +:+ slice_from (i + String.length sep) s.
Proof.
  revert i; induction s as [|c s IH]; intros i; rewrite Index_eq.
  - destruct (HasPrefix "" sep) eqn:E; [|done]. intros [= <-].
    by apply HasPrefix_true in E.
  - destruct (HasPrefix (String c s) sep) eqn:E.
    + intros [= <-]. by apply HasPrefix_true in E.
    + destruct (Index s sep) as [j|]; [|done]. intros [= <-]. simpl.
      by rewrite <- (IH j eq_refl).
Qed.

(** What precedes the first occurrence holds no occurrence. *)
Lemma Index_slice_to_None (s : string) (d : ascii) (sep : string) (i : nat) :
  Index s (String d sep) = Some i → Index (slice_to i s) (String d sep) = None.
Proof.
  revert i; induction s as [|c s IH]; intros i; rewrite Index_eq.
  - by destruct i.
  - destruct (HasPrefix (String c s) (String d sep)) eqn:E.
    + by intros [= <-].
    + destruct (Index s (String d sep)) as [j|] eqn:Ej; [|done]. intros [= <-].
      simpl. rewrite Index_eq.
      destruct (HasPrefix (String c (slice_to j s)) (String d sep)) eqn:E'.
      * apply (HasPrefix_slice_to (S j) (String c s)) in E'. congruence.
      * by rewrite <- Index_eq, (IH j eq_refl).
Qed.

Lemma Index_app_is_Some (p sep r : string) : is_Some (Index (p +:+ sep +:+ r) sep).
Proof.
  induction p as [|c p IH]; rewrite Index_eq.
  - change ("" +:+ sep +:+ r) with (sep +:+ r). by rewrite HasPrefix_app.
  - destruct (HasPrefix (String c p +:+ sep +:+ r) sep); [done|].
    change (String c p +:+ sep +:+ r) with (String c (p +:+ sep +:+ r)).
    destruct IH as [j ->]. done.
Qed.

Lemma HasSuffix_Index (s sep : string) :
  HasSuffix s sep = true → is_Some (Index s sep).
Proof.
  intros H%HasSuffix_true.
  pose proof (Index_app_is_Some
                (slice_to (String.length s - String.length sep) s) sep "") as Hi.
  by rewrite app_empty_r, <- H in Hi.
Qed.

(** The key of line 135 for a base segment that ends in [.json]. *)
Lemma oembedKey_first_json (b : string) :
  HasSuffix b ".json" = true →
  ∃ rest, b = oembedKey b +:+ ".json" +:+ rest ∧ Index (oembedKey b) ".json" = None.
Proof.
  intros [i Hi]%HasSuffix_Index. unfold oembedKey, SplitN2. rewrite Hi. simpl.
  exists (slice_from (i + 5) b). split.
  - by apply Index_Some_split in Hi.
  - by apply Index_slice_to_None.
Qed.

End FirstOccurrence.

(** X6.  A string without the token is left as it is by the substitution;
    the oEmbed answer for a record whose title and author hold no
    [{domain}] carries them as stored and is the same for every host. *)
Theorem X6_no_token_host_independent
    (env : Env) (path host1 host2 : string) (w : response) (file : doc)
    (r : FileRecord) :
  classify path = OEmbed →
  FindOne (collection (db env)) "filename"
    (Some (BStr (oembedKey (Path.Base path)))) = Some file →
  carries file r →
  Strings.Index (embed_title r) "{domain}" = None →
  Strings.Index (embed_author r) "{domain}" = None →
  requestHandler env {| Path_ := path; Host := host1; Resp := w |}
  = Served (Write (SetContentType w "application/json")
              (oembedBody env (embed_title r) (embed_author r)))
  ∧ requestHandler env {| Path_ := path; Host := host1; Resp := w |}
    = requestHandler env {| Path_ := path; Host := host2; Resp := w |}.
Proof.
  intros Hc Hfind Hcar Ht Ha.
  assert (∀ s host, Strings.Index s "{domain}" = None →
                    Strings.ReplaceAll s domainToken host = s) as Hid.
  { intros s host Hs.
    apply (ReplaceAll_Join "{" "domain}" host [s] eq_refl). by constructor. }
  assert (∀ host, requestHandler env {| Path_ := path; Host := host; Resp := w |}
          = Served (Write (SetContentType w "application/json")
                      (oembedBody env (embed_title r) (embed_author r)))) as E.
  { intros host. rewrite requestHandler_classify. cbn [Path_ Host Resp].
    rewrite Hc, (oembedCase_carries env w _ host file r Hfind Hcar).
    by rewrite !Hid. }
  split; [apply E|]. by rewrite !E.
Qed.

Lemma X6_witness :
  requestHandler Demo.env {| Path_ := "/clip.mp4.json"; Host := "a.com"; Resp := emptyResponse |}
  = requestHandler Demo.env {| Path_ := "/clip.mp4.json"; Host := "b.com"; Resp := emptyResponse |}.
Proof.
  apply (X6_no_token_host_independent Demo.env "/clip.mp4.json" "a.com" "b.com"
           emptyResponse (doc_of Demo.clip) Demo.clip).
  - reflexivity.
  - reflexivity.
  - apply carries_doc_of.
  - reflexivity.
  - reflexivity.
Defined.

(* ===================================================================== *)
(** * Status code and redirect *)
(* ===================================================================== *)

Section Keeps.
Variable env : Env.
Variable w0 : response.

Lemma keeps_refl : keeps_status w0 w0.
Proof. by split. Qed.

Lemma keeps_SetContentType (w : response) (t : string) :
  keeps_status w0 w → keeps_status w0 (SetContentType w t).
Proof. by intros [? ?]. Qed.

Lemma keeps_SetBody (w : response) (b : string) :
  keeps_status w0 w → keeps_status w0 (SetBody w b).
Proof. by intros [? ?]. Qed.

Lemma keeps_Write (w : response) (b : string) :
  keeps_status w0 w → keeps_status w0 (Write w b).
Proof. by intros [? ?]. Qed.

Lemma keeps_sendErr (w : response) (msg : string) :
  keeps_status w0 w → keeps_status w0 (sendErr env w msg).
Proof. by intros [? ?]. Qed.

Lemma keeps_serveRaw (w : response) (obj : GetObjectOutput) (b : string) :
  keeps_status w0 w → keeps_status w0 (serveRaw w obj b).
Proof. by intros [? ?]. Qed.

Lemma flow_keeps_Next {A : Type} (Q : A → Prop) (a : A) :
  Q a → flow_keeps w0 Q (Next a).
Proof. done. Qed.

Lemma flow_keeps_fail {A : Type} (Q : A → Prop) (w : response) (msg : string) :
  keeps_status w0 w → flow_keeps w0 Q (@fail env A w msg).
Proof. intros H. by apply keeps_sendErr. Qed.

Lemma flow_keeps_bind {A B : Type} (Q : B → Prop) (m : flow A) (k : A → flow B) :
  flow_keeps w0 (fun _ => True) m →
  (∀ a, flow_keeps w0 Q (k a)) →
  flow_keeps w0 Q (m ≫= k).
Proof. intros Hm Hk. destruct m as [a|[w|msg w|]]; try done. apply Hk. Qed.

Lemma flow_keeps_assertString (v : option bval) :
  flow_keeps w0 (fun _ => True) (assertString v).
Proof. by destruct v as [[]|]. Qed.

Lemma flow_keeps_assertM (v : option bval) :
  flow_keeps w0 (fun _ => True) (assertM v).
Proof. by destruct v as [[]|]. Qed.

Lemma flow_keeps_index0 (l : list string) :
  flow_keeps w0 (fun _ => True) (index0 l).
Proof. by destruct l. Qed.

Lemma flow_keeps_executeTemplate (t : template) (data : tdata) :
  flow_keeps w0 (keeps_status w0) (executeTemplate env w0 t data).
Proof.
  unfold executeTemplate. destruct (Execute env t data) as [out [e|]].
  - apply flow_keeps_fail, keeps_Write, keeps_SetContentType, keeps_refl.
  - apply keeps_Write, keeps_SetContentType, keeps_refl.
Qed.

Lemma flow_keeps_renderPage (t : template) (data : tdata) :
  flow_keeps w0 (keeps_status w0) (renderPage env w0 t data).
Proof.
  unfold renderPage. destruct (Parse env t).
  - apply flow_keeps_fail, keeps_refl.
  - apply flow_keeps_executeTemplate.
Qed.

Ltac keeps :=
  repeat
    match goal with
    | |- True => exact I
    | |- keeps_status _ _ =>
        first [ apply keeps_refl | apply keeps_serveRaw | apply keeps_Write
              | apply keeps_SetContentType ]
    | |- flow_keeps _ _ (fail _ _ _) => apply flow_keeps_fail
    | |- flow_keeps _ _ (assertString _) => apply flow_keeps_assertString
    | |- flow_keeps _ _ (assertM _) => apply flow_keeps_assertM
    | |- flow_keeps _ _ (index0 _) => apply flow_keeps_index0
    | |- flow_keeps _ _ (executeTemplate _ _ _ _) => apply flow_keeps_executeTemplate
    | |- flow_keeps _ _ (renderPage _ _ _ _) => apply flow_keeps_renderPage
    | |- flow_keeps _ _ (_ ≫= _) => apply flow_keeps_bind; [|intros ?]
    | |- flow_keeps _ _ (Next _) => apply flow_keeps_Next
    | |- flow_keeps _ _ (match ?x with _ => _ end) => destruct x
    end.

Lemma flow_keeps_oembedCase (basePath host : string) :
  flow_keeps w0 (keeps_status w0) (oembedCase env w0 basePath host).
Proof. unfold oembedCase. keeps. Qed.

Lemma flow_keeps_lookupFile (basePath : string) :
  flow_keeps w0 (fun _ => True) (lookupFile env w0 basePath).
Proof. unfold lookupFile. keeps. Qed.

Lemma flow_keeps_serveFile (host : string) (file : doc) :
  flow_keeps w0 (keeps_status w0) (serveFile env w0 host file).
Proof. unfold serveFile. keeps. Qed.

(** The short link case either fails and keeps the status, or redirects
    with 301. *)
Lemma flow_keeps_shortlinkCase (basePath : string) :
  flow_keeps w0 (fun w => StatusCode w = 301%Z ∧ is_Some (RedirectURI w))
    (shortlinkCase env w0 basePath).
Proof.
  unfold shortlinkCase.
  destruct (FindOne (shortenerCol (db env)) "shortId" (Some (BStr basePath))) as [d|];
    [|apply flow_keeps_fail, keeps_refl].
  destruct (assertString (Decode d None !! "destination")) as [dest|[ | |]] eqn:E;
    try (by destruct (Decode d None !! "destination") as [[]|]).
  simpl. destruct (negb (Strings.HasPrefix dest "http")); simpl;
    (split; [reflexivity | by eexists]).
Qed.

Lemma flow_keeps_finish (Q : response → Prop) (m : flow response) (w' : response) :
  flow_keeps w0 Q m → observe (finish m) = Some w' →
  (Q w' ∧ m = Next w') ∨ (keeps_status w0 w' ∧ m ≠ Next w').
Proof.
  destruct m as [w|[w|msg w|]]; simpl; intros H [= <-]; auto.
Qed.

End Keeps.

(** X7.  An error answer keeps the status code and the redirect of the
    response the handler was given: on a fresh context every error is sent
    with status 200 and without a redirect. *)
Theorem X7_errors_keep_status
    (env : Env) (ctx : RequestCtx) (msg : string) (w' : response) :
  requestHandler env ctx = Failed msg w' →
  StatusCode w' = StatusCode (Resp ctx) ∧ RedirectURI w' = RedirectURI (Resp ctx).
Proof.
  rewrite requestHandler_classify. intros H.
  assert (∀ (Q : response → Prop) m,
            flow_keeps (Resp ctx) Q m → finish m = Failed msg w' →
            keeps_status (Resp ctx) w') as Hfin.
  { intros Q m Hm Hf. destruct m as [w|[w|msg' w|]]; simpl in *; by simplify_eq. }
  destruct (classify (Path_ ctx)); try done.
  - refine (Hfin _ _ _ H). apply flow_keeps_oembedCase.
  - refine (Hfin _ _ _ H). apply flow_keeps_shortlinkCase.
  - refine (Hfin _ _ _ H). apply flow_keeps_bind; [apply flow_keeps_lookupFile|].
    intros file. apply flow_keeps_serveFile.
Qed.

Lemma X7_witness :
  StatusCode (sendErr Demo.env emptyResponse "invalid file") = StatusCode emptyResponse
  ∧ RedirectURI (sendErr Demo.env emptyResponse "invalid file") = RedirectURI emptyResponse.
Proof.
  apply (X7_errors_keep_status Demo.env (newCtx "/nope.png" "a.com") "invalid file"
           (sendErr Demo.env emptyResponse "invalid file")).
  reflexivity.
Defined.

(** X8.  The handler redirects only in the root case and in the short link
    case, always with status 301; every other answer, and every error,
    keeps the status code and the redirect it was given. *)
Theorem X8_redirect_only_root_and_shortlink
    (env : Env) (ctx : RequestCtx) (w' : response) :
  observe (requestHandler env ctx) = Some w' →
  (StatusCode w' = StatusCode (Resp ctx) ∧ RedirectURI w' = RedirectURI (Resp ctx))
  ∨ (StatusCode w' = 301%Z ∧ is_Some (RedirectURI w')
     ∧ (classify (Path_ ctx) = RootRedirect ∨ classify (Path_ ctx) = ShortLink)).
Proof.
  rewrite requestHandler_classify. intros H.
  destruct (classify (Path_ ctx)) eqn:Hc.
  - right. simpl in H. injection H as <-. by eauto.
  - left.
    destruct (flow_keeps_finish _ _ _ _
                (flow_keeps_oembedCase env (Resp ctx) (Path.Base (Path_ ctx)) (Host ctx)) H)
      as [[? _]|[? _]]; done.
  - destruct (flow_keeps_finish _ _ _ _
                (flow_keeps_shortlinkCase env (Resp ctx) (Path.Base (Path_ ctx))) H)
      as [[[? ?] _]|[? _]]; [right|left]; auto.
  - left.
    assert (flow_keeps (Resp ctx) (keeps_status (Resp ctx))
              (file ← lookupFile env (Resp ctx) (Path.Base (Path_ ctx));
               serveFile env (Resp ctx) (Host ctx) file)) as Hk
      by (apply flow_keeps_bind; [apply flow_keeps_lookupFile|];
          intros file; apply flow_keeps_serveFile).
    destruct (flow_keeps_finish _ _ _ _ Hk H) as [[? _]|[? _]]; done.
  - left. simpl in H. by injection H as <-.
Qed.

Lemma X8_witness :
  (StatusCode (Redirect emptyResponse "https://example.com/x" 301) = StatusCode emptyResponse
   ∧ RedirectURI (Redirect emptyResponse "https://example.com/x" 301)
     = RedirectURI emptyResponse)
  ∨ (StatusCode (Redirect emptyResponse "https://example.com/x" 301) = 301%Z
     ∧ is_Some (RedirectURI (Redirect emptyResponse "https://example.com/x" 301))
     ∧ (classify "/s/ex" = RootRedirect ∨ classify "/s/ex" = ShortLink)).
Proof.
  apply (X8_redirect_only_root_and_shortlink Demo.env (newCtx "/s/ex" "a.com")
           (Redirect emptyResponse "https://example.com/x" 301)).
  vm_compute. reflexivity.
Defined.

(* ===================================================================== *)
(** * Panics: which records crash the handler *)
(* ===================================================================== *)

Section Panics.
Variable env : Env.

Lemma carries_Decode (d : doc) (file : option doc) (r : FileRecord) :
  carries d r → carries (Decode d file) r.
Proof.
  intros H. carry H. unfold carries, Decode.
  repeat split; try (by apply lookup_union_Some_l).
  - exists uploader. split; [by apply lookup_union_Some_l | done].
  - exists embed. repeat split; try done. by apply lookup_union_Some_l.
Qed.

Lemma renderPage_no_panic (w : response) (t : template) (data : tdata) :
  renderPage env w t data ≠ Exit Panicked.
Proof.
  unfold renderPage, executeTemplate.
  destruct (Parse env t); [done|]. by destruct (Execute env t data) as [out [e|]].
Qed.

Lemma serveRecord_no_panic (w : response) (host : string) (r : FileRecord) :
  serveRecord env w host r ≠ Exit Panicked.
Proof.
  unfold serveRecord.
  destruct (userOnlyDomain r && negb (String.eqb host (domain r))); [done|].
  destruct (GetObject env (Getenv env "S3_BUCKET_NAME") (key r)) as [obj|e]; [|done].
  destruct (ReadAll_Body obj) as [bytes|e]; [|done].
  destruct (embed_enabled r); [apply renderPage_no_panic|].
  destruct (showLink r); [|done].
  destruct (String.eqb (category (mimetype r)) "video"); [done|].
  apply renderPage_no_panic.
Qed.

(** The lookup of the last case resolves to a document of the files
    collection, decoded into an empty map or into the alias record. *)
Lemma lookupFile_Next (w : response) (basePath : string) (file : doc) :
  lookupFile env w basePath = Next file →
  ∃ d old, d ∈ collection (db env) ∧ file = Decode d old.
Proof.
  unfold lookupFile. destruct (Strings.HasSuffix basePath zwsp).
  - destruct (FindOne (invisibleURL (db env)) "_id" (Some (BStr basePath)))
      as [a|]; [|done].
    destruct (FindOne (collection (db env)) "filename" (Decode a None !! "filename"))
      as [d|] eqn:Hd; [|done].
    intros [= <-]. apply FindOne_Some in Hd as [Hin _]. by eauto.
  - destruct (FindOne (collection (db env)) "filename" (Some (BStr basePath)))
      as [d|] eqn:Hd; [|done].
    intros [= <-]. apply FindOne_Some in Hd as [Hin _]. by eauto.
Qed.

Lemma lookupFile_no_panic (w : response) (basePath : string) :
  lookupFile env w basePath ≠ Exit Panicked.
Proof.
  unfold lookupFile. destruct (Strings.HasSuffix basePath zwsp).
  - destruct (FindOne (invisibleURL (db env)) "_id" (Some (BStr basePath)));
      [|done].
    by destruct (FindOne (collection (db env)) "filename" _).
  - by destruct (FindOne (collection (db env)) "filename" _).
Qed.

End Panics.

(** X9.  When every document of the files collection has the fields of a
    file record with their types, and every short link has a string as
    destination, the handler does not panic, whatever the request and
    whatever the object store and the template engine do. *)
Theorem X9_typed_store_no_panic (env : Env) (ctx : RequestCtx) :
  (∀ d, d ∈ collection (db env) → ∃ r, carries d r) →
  (∀ d, d ∈ shortenerCol (db env) → ∃ s, d !! "destination" = Some (BStr s)) →
  requestHandler env ctx ≠ Panicked.
Proof.
  intros Hfiles Hshort. rewrite requestHandler_classify.
  destruct (classify (Path_ ctx)); try done.
  - destruct (FindOne (collection (db env)) "filename"
                (Some (BStr (oembedKey (Path.Base (Path_ ctx)))))) as [d|] eqn:Hd.
    + pose proof Hd as [Hin _]%FindOne_Some. destruct (Hfiles d Hin) as [r Hr].
      by rewrite (oembedCase_carries env _ _ _ d r Hd Hr).
    + unfold oembedCase. rewrite index0_SplitN2. simpl.
      fold (oembedKey (Path.Base (Path_ ctx))). by rewrite Hd.
  - unfold shortlinkCase.
    destruct (FindOne (shortenerCol (db env)) "shortId"
                (Some (BStr (Path.Base (Path_ ctx))))) as [d|] eqn:Hd; [|done].
    apply FindOne_Some in Hd as [Hin _]. destruct (Hshort d Hin) as [s Hs].
    rewrite Decode_nil, Hs. simpl.
    by destruct (negb (Strings.HasPrefix s "http")).
  - destruct (lookupFile env (Resp ctx) (Path.Base (Path_ ctx))) as [file|o] eqn:Hl.
    + simpl. destruct (lookupFile_Next env _ _ _ Hl) as (d & old & Hin & ->).
      destruct (Hfiles d Hin) as [r Hr].
      rewrite (serveFile_carries env _ _ _ r (carries_Decode d old r Hr)).
      pose proof (serveRecord_no_panic env (Resp ctx) (Host ctx) r) as Hn.
      by destruct (serveRecord env (Resp ctx) (Host ctx) r) as [w|[w|msg w|]].
    + simpl. intros ->. by apply (lookupFile_no_panic env (Resp ctx) _) in Hl.
Qed.

Lemma X9_witness :
  requestHandler (with_collection Demo.env [doc_of Demo.pic; doc_of Demo.clip])
    (newCtx "/pic.png" "a.com") ≠ Panicked.
Proof.
  apply (X9_typed_store_no_panic
           (with_collection Demo.env [doc_of Demo.pic; doc_of Demo.clip])
           (newCtx "/pic.png" "a.com")).
  - intros d Hd. simpl in Hd.
    apply elem_of_cons in Hd as [->|Hd]; [exists Demo.pic; apply carries_doc_of|].
    apply list_elem_of_singleton in Hd as ->. exists Demo.clip. apply carries_doc_of.
  - intros d Hd. simpl in Hd.
    apply elem_of_cons in Hd as [->|Hd]; [by eexists|].
    apply list_elem_of_singleton in Hd as ->. by eexists.
Defined.

(** X10.  A short link record whose [destination] is missing or is not a
    string makes the handler panic. *)
Theorem X10_shortlink_without_destination
    (env : Env) (ctx : RequestCtx) (shortened : doc) :
  classify (Path_ ctx) = ShortLink →
  FindOne (shortenerCol (db env)) "shortId" (Some (BStr (Path.Base (Path_ ctx))))
    = Some shortened →
  (∀ s, shortened !! "destination" ≠ Some (BStr s)) →
  requestHandler env ctx = Panicked.
Proof.
  intros Hc Hfind Hd. rewrite requestHandler_classify, Hc. unfold shortlinkCase.
  rewrite Hfind, Decode_nil.
  destruct (shortened !! "destination") as [[s|b|z| |e]|] eqn:E; try done.
  by destruct (Hd s).
Qed.

Lemma X10_witness :
  requestHandler Edge.env (newCtx "/s/num" "a.com") = Panicked.
Proof.
  apply (X10_shortlink_without_destination Edge.env (newCtx "/s/num" "a.com")
           (list_to_map [("shortId", BStr "num"); ("destination", BNum 7)])).
  - reflexivity.
  - reflexivity.
  - intros s. discriminate.
Defined.

(** X11.  An oEmbed request that finds a record panics when the record
    has no [embed] document, or when the title or the author in it is not
    a string. *)
Theorem X11_oembed_without_embed
    (env : Env) (ctx : RequestCtx) (file : doc) :
  classify (Path_ ctx) = OEmbed →
  FindOne (collection (db env)) "filename"
    (Some (BStr (oembedKey (Path.Base (Path_ ctx))))) = Some file →
  (∀ embed, file !! "embed" = Some (BDoc embed) →
     (∀ s, embed !! "title" ≠ Some (BStr s))
     ∨ (∀ s, embed !! "author" ≠ Some (BStr s))) →
  requestHandler env ctx = Panicked.
Proof.
  intros Hc Hfind Hbad. rewrite requestHandler_classify, Hc. unfold oembedCase.
  rewrite index0_SplitN2. simpl. fold (oembedKey (Path.Base (Path_ ctx))).
  rewrite Hfind, Decode_nil.
  destruct (file !! "embed") as [[s|b|z| |embed]|] eqn:E; try done. simpl.
  destruct (embed !! "title") as [[t|b|z| |e]|] eqn:Et; try done. simpl.
  rewrite (lookup_insert_ne embed "title" "author") by done.
  destruct (embed !! "author") as [[a|b|z| |e]|] eqn:Ea; try done.
  destruct (Hbad embed eq_refl) as [H|H]; [by destruct (H t) | by destruct (H a)].
Qed.

Lemma X11_witness :
  requestHandler Edge.env (newCtx "/flat.bin.json" "a.com") = Panicked.
Proof.
  apply (X11_oembed_without_embed Edge.env (newCtx "/flat.bin.json" "a.com") Edge.flat).
  - reflexivity.
  - reflexivity.
  - intros embed H. discriminate H.
Defined.

(** X12.  A record with [userOnlyDomain] true and no string [domain]
    makes every file-resolve request for it panic, whatever the host. *)
Theorem X12_restricted_without_domain
    (env : Env) (ctx : RequestCtx) (file : doc) :
  classify (Path_ ctx) = FileResolve →
  lookupFile env (Resp ctx) (Path.Base (Path_ ctx)) = Next file →
  file !! "userOnlyDomain" = Some (BBool true) →
  (∀ s, file !! "domain" ≠ Some (BStr s)) →
  requestHandler env ctx = Panicked.
Proof.
  intros Hc Hl Hu Hd. rewrite requestHandler_classify, Hc, Hl. simpl.
  unfold serveFile. rewrite Hu. simpl.
  destruct (file !! "domain") as [[s|b|z| |e]|] eqn:E; try done.
  by destruct (Hd s).
Qed.

Lemma X12_witness :
  requestHandler Edge.env (newCtx "/homeless.png" "a.com") = Panicked.
Proof.
  apply (X12_restricted_without_domain Edge.env (newCtx "/homeless.png" "a.com")
           Edge.homeless).
  - reflexivity.
  - reflexivity.
  - reflexivity.
  - intros s. discriminate.
Defined.

(** X13.  The fields [embed], [uploader] and [embed.description] are read
    before the branch is chosen: once the object is fetched, a record that
    lacks one of them makes the handler panic, also when neither the embed
    page nor the show-link page is asked for. *)
Theorem X13_raw_needs_embed_and_uploader
    (env : Env) (ctx : RequestCtx) (file : doc) (k mt : string)
    (obj : GetObjectOutput) (bytes : string) :
  classify (Path_ ctx) = FileResolve →
  lookupFile env (Resp ctx) (Path.Base (Path_ ctx)) = Next file →
  file !! "userOnlyDomain" ≠ Some (BBool true) →
  file !! "key" = Some (BStr k) →
  GetObject env (Getenv env "S3_BUCKET_NAME") k = Ok obj →
  ReadAll_Body obj = Ok bytes →
  file !! "mimetype" = Some (BStr mt) →
  (∀ embed uploader,
     file !! "embed" = Some (BDoc embed) →
     file !! "uploader" = Some (BDoc uploader) →
     ∀ s, embed !! "description" ≠ Some (BStr s)) →
  requestHandler env ctx = Panicked.
Proof.
  intros Hc Hl Hu Hk Hget Hread Hmt Hbad.
  rewrite requestHandler_classify, Hc, Hl. simpl. unfold serveFile.
  rewrite (is_true_false _ Hu), Hk. simpl. rewrite Hget, Hread, Hmt. simpl.
  rewrite index0_SplitN2. simpl.
  destruct (file !! "embed") as [[s|b|z| |embed]|] eqn:E; try done. simpl.
  destruct (file !! "uploader") as [[s|b|z| |uploader]|] eqn:Eu; try done. simpl.
  destruct (embed !! "description") as [[s|b|z| |e]|] eqn:Ed; try done.
  by destruct (Hbad embed uploader eq_refl eq_refl s).
Qed.

Lemma X13_witness :
  requestHandler Edge.env (newCtx "/anonymous.bin" "a.com") = Panicked.
Proof.
  apply (X13_raw_needs_embed_and_uploader Edge.env (newCtx "/anonymous.bin" "a.com")
           Edge.anonymous "u1/raw.bin" "application/zip"
           {| ContentType := Some "application/octet-stream";
              ReadAll_Body := Ok "0123456789" |} "0123456789").
  - reflexivity.
  - reflexivity.
  - discriminate.
  - reflexivity.
  - reflexivity.
  - reflexivity.
  - reflexivity.
  - intros embed uploader _ H. discriminate H.
Defined.

(* ===================================================================== *)
(** * Failures of the object store and of the templates *)
(* ===================================================================== *)

(** X14.  When the object cannot be fetched or read, the handler answers
    with the envelope of the store's error text and nothing else; this
    happens before the mimetype, the embed and the uploader are read, so
    it does not depend on them. *)
Theorem X14_upstream_error_reported
    (env : Env) (ctx : RequestCtx) (file : doc) (k e : string) :
  classify (Path_ ctx) = FileResolve →
  lookupFile env (Resp ctx) (Path.Base (Path_ ctx)) = Next file →
  file !! "userOnlyDomain" ≠ Some (BBool true)
    ∨ file !! "domain" = Some (BStr (Host ctx)) →
  file !! "key" = Some (BStr k) →
  GetObject env (Getenv env "S3_BUCKET_NAME") k = Err e
    ∨ (∃ obj, GetObject env (Getenv env "S3_BUCKET_NAME") k = Ok obj
              ∧ ReadAll_Body obj = Err e) →
  requestHandler env ctx
  = Failed e {| StatusCode := StatusCode (Resp ctx);
                RespContentType := "application/json";
                RedirectURI := RedirectURI (Resp ctx);
                Body := Body (Resp ctx) +:+ envelope env e |}.
Proof.
  intros Hc Hl Hdom Hk Hfetch. rewrite <- sendErr_eq.
  rewrite requestHandler_classify, Hc, Hl. simpl. unfold serveFile.
  assert ((if is_true (file !! "userOnlyDomain")
           then domain ← assertString (file !! "domain");
                if negb (String.eqb (Host ctx) domain)
                then fail env (Resp ctx) "invalid file" else Next ()
           else Next ()) = Next ()) as ->.
  { destruct Hdom as [Hu|Hd].
    - by rewrite (is_true_false _ Hu).
    - rewrite Hd. simpl. rewrite String.eqb_refl. simpl.
      by destruct (is_true (file !! "userOnlyDomain")). }
  rewrite Hk. simpl.
  destruct Hfetch as [->|(obj & -> & ->)]; done.
Qed.

Lemma X14_witness :
  requestHandler Edge.env (newCtx "/lost.bin" "a.com")
  = Failed "NoSuchKey"
      {| StatusCode := 200; RespContentType := "application/json";
         RedirectURI := None;
         Body := "" +:+ envelope Edge.env "NoSuchKey" |}
  ∧ requestHandler Edge.env (newCtx "/torn.bin" "a.com")
    = Failed "unexpected EOF"
        {| StatusCode := 200; RespContentType := "application/json";
           RedirectURI := None;
           Body := "" +:+ envelope Edge.env "unexpected EOF" |}.
Proof.
  split.
  - apply (X14_upstream_error_reported Edge.env (newCtx "/lost.bin" "a.com")
             (doc_of Edge.lost) "u1/lost" "NoSuchKey").
    + reflexivity.
    + reflexivity.
    + left. discriminate.
    + reflexivity.
    + left. reflexivity.
  - apply (X14_upstream_error_reported Edge.env (newCtx "/torn.bin" "a.com")
             (doc_of Edge.torn) "u1/torn" "unexpected EOF").
    + reflexivity.
    + reflexivity.
    + left. discriminate.
    + reflexivity.
    + right. eexists. split; reflexivity.
Defined.

(** X16.  The target of a short link redirect always begins with [http]:
    a stored destination that does not is given the prefix [https://]. *)
Theorem X16_redirect_target_has_scheme_prefix
    (env : Env) (ctx : RequestCtx) (w' : response) :
  classify (Path_ ctx) = ShortLink →
  requestHandler env ctx = Served w' →
  ∃ target, RedirectURI w' = Some target ∧ Strings.HasPrefix target "http" = true.
Proof.
  intros Hc. rewrite requestHandler_classify, Hc. unfold shortlinkCase.
  destruct (FindOne (shortenerCol (db env)) "shortId"
              (Some (BStr (Path.Base (Path_ ctx))))) as [d|]; [|done].
  destruct (Decode d None !! "destination") as [[s|b|z| |e]|] eqn:E; try done.
  simpl. destruct (Strings.HasPrefix s "http") eqn:Hs; simpl.
  - intros [= <-]. by exists s.
  - intros [= <-]. by exists ("https://" +:+ s).
Qed.

Lemma X16_witness :
  ∃ target,
    RedirectURI (Redirect emptyResponse "https://example.com/x" 301) = Some target
    ∧ Strings.HasPrefix target "http" = true.
Proof.
  apply (X16_redirect_target_has_scheme_prefix Demo.env (newCtx "/s/ex" "a.com")
           (Redirect emptyResponse "https://example.com/x" 301)).
  - reflexivity.
  - vm_compute. reflexivity.
Defined.

(** X17.  The answer to a file-resolve request depends on the record
    through nine fields only: setting or removing any other field ([_id],
    [title] at the top level, ...) changes nothing. *)
Theorem X17_other_fields_ignored
    (env : Env) (w : response) (host : string) (file : doc) (k : string) (v : bval) :
  k ∉ readKeys →
  serveFile env w host (<[k := v]> file) = serveFile env w host file
  ∧ serveFile env w host (delete k file) = serveFile env w host file.
Proof.
  intros Hk. split; apply serveFile_ext; intros k' Hk'.
  - apply lookup_insert_ne. by intros ->.
  - apply lookup_delete_ne. by intros ->.
Qed.

Lemma X17_witness :
  serveFile Demo.env emptyResponse "a.com" (<["_id" := BNum 1]> (doc_of Demo.clip))
  = serveFile Demo.env emptyResponse "a.com" (doc_of Demo.clip).
Proof.
  apply (X17_other_fields_ignored Demo.env emptyResponse "a.com" (doc_of Demo.clip)
           "_id" (BNum 1)).
  intros H. apply (bool_decide_eq_true_2 ("_id" ∈ readKeys)) in H. discriminate H.
Defined.

(** X18.  The oEmbed case has no domain check: for a record with
    [userOnlyDomain] true, a host other than its [domain] is refused the
    file with "invalid file" and still gets the title and the author of
    the record through the [.json] path. *)
Theorem X18_oembed_skips_domain_check
    (env : Env) (host filePath jsonPath : string) (file : doc) (r : FileRecord) :
  carries file r →
  userOnlyDomain r = true →
  host ≠ domain r →
  classify filePath = FileResolve →
  lookupFile env emptyResponse (Path.Base filePath) = Next file →
  classify jsonPath = OEmbed →
  FindOne (collection (db env)) "filename"
    (Some (BStr (oembedKey (Path.Base jsonPath)))) = Some file →
  requestHandler env (newCtx filePath host)
  = Failed "invalid file" (sendErr env emptyResponse "invalid file")
  ∧ requestHandler env (newCtx jsonPath host)
    = Served (Write (SetContentType emptyResponse "application/json")
                (oembedBody env
                   (Strings.ReplaceAll (embed_title r) "{domain}" host)
                   (Strings.ReplaceAll (embed_author r) "{domain}" host))).
Proof.
  intros Hcar Hu Hh Hcf Hl Hcj Hfind. split.
  - rewrite requestHandler_classify. cbn [newCtx Path_ Host Resp].
    rewrite Hcf, Hl. simpl.
    rewrite (serveFile_carries env _ _ _ r Hcar). unfold serveRecord.
    rewrite Hu. apply String.eqb_neq in Hh. by rewrite Hh.
  - rewrite requestHandler_classify. cbn [newCtx Path_ Host Resp].
    by rewrite Hcj, (oembedCase_carries env _ _ _ file r Hfind Hcar).
Qed.

Lemma X18_witness :
  requestHandler Edge.env (newCtx "/locked.png" "b.com")
  = Failed "invalid file" (sendErr Edge.env emptyResponse "invalid file")
  ∧ requestHandler Edge.env (newCtx "/locked.png.json" "b.com")
    = Served (Write (SetContentType emptyResponse "application/json")
                (oembedBody Edge.env
                   (Strings.ReplaceAll "my title" "{domain}" "b.com")
                   (Strings.ReplaceAll "me" "{domain}" "b.com"))).
Proof.
  apply (X18_oembed_skips_domain_check Edge.env "b.com" "/locked.png" "/locked.png.json"
           (doc_of Edge.locked) Edge.locked).
  - apply carries_doc_of.
  - reflexivity.
  - discriminate.
  - reflexivity.
  - reflexivity.
  - reflexivity.
  - reflexivity.
Defined.

(** X19.  The category of a mimetype is what precedes its first [/], and
    the whole mimetype when it has no [/]; the embed page is given at most
    one of the two booleans [Image] and [Video]. *)
Theorem X19_mimetype_category (env : Env) (host : string) (r : FileRecord) :
  (∀ t sub, Strings.has_byte "/" t = false → category (t +:+ "/" +:+ sub) = t)
  ∧ (∀ m, Strings.has_byte "/" m = false → category m = m)
  ∧ Image (embedPageData env host r) && Video (embedPageData env host r) = false.
Proof.
  assert (∀ m, Strings.has_byte "/" m = false → Strings.Index m "/" = None) as Hnone.
  { induction m as [|c m IH]; [done|]. intros H.
    change (Ascii.eqb "/" c || Strings.has_byte "/" m = false) in H.
    apply orb_false_elim in H as [Hc Hm].
    by rewrite Index_eq, HasPrefix_cons, Ascii.eqb_sym, Hc, andb_false_l, (IH Hm). }
  repeat split.
  - intros t sub Ht. unfold category, Strings.SplitN2.
    change (t +:+ "/" +:+ sub) with (t +:+ String "/" "" +:+ sub).
    rewrite (Index_app_token "/" "" t sub eq_refl (Hnone t Ht)). simpl.
    apply slice_to_app.
  - intros m Hm. unfold category, Strings.SplitN2. by rewrite (Hnone m Hm).
  - simpl. destruct (String.eqb (category (mimetype r)) "image") eqn:E; [|done].
    apply String.eqb_eq in E. by rewrite E.
Qed.

(* ===================================================================== *)
(** * Alias requests, error bodies and flags *)
(* ===================================================================== *)

(** The alias that finds a typed record by its [filename] names it. *)
Lemma alias_names_record (col : list doc) (a d : doc) (r : FileRecord) :
  FindOne col "filename" (a !! "filename") = Some d →
  carries d r →
  a !! "filename" = Some (BStr (filename r)).
Proof.
  intros [_ Hm]%FindOne_Some (Hfn & _). rewrite Hfn in Hm.
  destruct (a !! "filename") as [[s|b|z| |e]|]; simpl in Hm;
    try done; by apply bool_decide_eq_true in Hm as [= ->].
Qed.

(** An alias request that resolves to a typed record is served from the
    record. *)
Lemma alias_serveRecord (env : Env) (w : response) (host basePath : string)
    (a d : doc) (r : FileRecord) :
  Strings.HasSuffix basePath zwsp = true →
  FindOne (invisibleURL (db env)) "_id" (Some (BStr basePath)) = Some a →
  FindOne (collection (db env)) "filename" (a !! "filename") = Some d →
  carries d r →
  (file ← lookupFile env w basePath; serveFile env w host file)
  = serveRecord env w host r.
Proof.
  intros Hz Ha Hd Hc. unfold lookupFile. rewrite Hz, Ha, Decode_nil, Hd. simpl.
  apply serveFile_carries. by apply carries_Decode.
Qed.

(** C6 (as the code has it).  Take an alias request (a file-resolve
    request whose base segment ends in U+200B) whose alias record names a
    typed record of the files collection.  Its answer is the answer to
    every direct file-resolve request for the file name of the record, and
    in particular to [/filename] when the file name is a plain one.  When
    the embed page is rendered for it, the oEmbed URL of the page is built
    from the file name of the record, not from the alias id. *)
Theorem C6_alias_answers_as_direct
    (env : Env) (host aliasPath : string) (a d : doc) (r : FileRecord) :
  classify aliasPath = FileResolve →
  Strings.HasSuffix (Path.Base aliasPath) zwsp = true →
  FindOne (invisibleURL (db env)) "_id" (Some (BStr (Path.Base aliasPath))) = Some a →
  FindOne (collection (db env)) "filename" (a !! "filename") = Some d →
  carries d r →
  (∀ directPath,
     classify directPath = FileResolve →
     Path.Base directPath = filename r →
     Strings.HasSuffix (filename r) zwsp = false →
     requestHandler env (newCtx aliasPath host)
     = requestHandler env (newCtx directPath host))
  ∧ (plain_filename (filename r) →
     requestHandler env (newCtx aliasPath host)
     = requestHandler env (newCtx ("/" +:+ filename r) host))
  ∧ (∀ obj bytes,
       (userOnlyDomain r = true → host = domain r) →
       GetObject env (Getenv env "S3_BUCKET_NAME") (key r) = Ok obj →
       ReadAll_Body obj = Ok bytes →
       embed_enabled r = true →
       requestHandler env (newCtx aliasPath host)
       = finish (renderPage env emptyResponse embedTemplate
                   (EmbedPage (embedPageData env host r)))
       ∧ OEmbedURL (embedPageData env host r)
         = "https://" +:+ host +:+ "/" +:+ filename r +:+ ".json").
Proof.
  intros Hca Hz Ha Hd Hc.
  pose proof (alias_names_record _ a d r Hd Hc) as Hname.
  assert (requestHandler env (newCtx aliasPath host)
          = finish (serveRecord env emptyResponse host r)) as Ealias.
  { rewrite requestHandler_classify. cbn [newCtx Path_ Host Resp]. rewrite Hca.
    by rewrite (alias_serveRecord env _ host _ a d r Hz Ha Hd Hc). }
  assert (∀ directPath,
            classify directPath = FileResolve →
            Path.Base directPath = filename r →
            Strings.HasSuffix (filename r) zwsp = false →
            requestHandler env (newCtx aliasPath host)
            = requestHandler env (newCtx directPath host)) as Hdirect.
  { intros directPath Hcd HB Hfz. rewrite Ealias.
    rewrite requestHandler_classify. cbn [newCtx Path_ Host Resp].
    rewrite Hcd, HB. unfold lookupFile. rewrite Hfz, <- Hname, Hd, Decode_nil. simpl.
    by rewrite (serveFile_carries env _ _ _ r Hc). }
  split; [exact Hdirect|]. split.
  - intros (Hne & Hslash & Hjson & Hfz & Hfav).
    change ("/" +:+ filename r) with (String "/" (filename r)).
    destruct (classify_single_segment (filename r) Hne Hslash Hjson Hfav) as [HB Hcf].
    by apply Hdirect.
  - intros obj bytes Hdom Hget Hread Hen. split; [|done].
    rewrite Ealias. unfold serveRecord.
    assert (userOnlyDomain r && negb (String.eqb host (domain r)) = false) as ->.
    { destruct (userOnlyDomain r); [|done].
      rewrite (Hdom eq_refl), String.eqb_refl. done. }
    by rewrite Hget, Hread, Hen.
Qed.

Lemma C6_witness :
  requestHandler Demo.env (newCtx ("/" +:+ "abc" +:+ zwsp) "a.com")
  = requestHandler Demo.env (newCtx ("/" +:+ "pic.png") "a.com").
Proof.
  destruct (C6_alias_answers_as_direct Demo.env "a.com" ("/" +:+ "abc" +:+ zwsp)
              (Demo.alias ("abc" +:+ zwsp) "pic.png") (doc_of Demo.pic) Demo.pic)
    as (_ & Hplain & _).
  - reflexivity.
  - reflexivity.
  - reflexivity.
  - reflexivity.
  - apply carries_doc_of.
  - apply Hplain. repeat split; try reflexivity; discriminate.
Defined.



Lemma is_true_decide (v : option bval) :
  is_true v = bool_decide (v = Some (BBool true)).
Proof.
  destruct v as [[s|[]|z| |d]|]; cbn [is_true]; symmetry;
    first [ by apply bool_decide_eq_true_2 | by apply bool_decide_eq_false_2 ].
Qed.

(** C10.  Each of the three flags counts as set exactly when the stored
    value is the boolean [true].  For a record whose other fields are
    typed and whose object is fetched, the answer is: the domain rejection
    when [userOnlyDomain] is the boolean [true] and the host differs; else
    the embed page when [embed.enabled] is the boolean [true]; else the
    show-link answer when [showLink] is the boolean [true]; else the raw
    bytes.  A flag that is missing, of another type, or [false] leaves its
    branch out: with none of the three stored as [true] the request is
    answered with the raw bytes, whatever the host. *)
Theorem C10_flag_needs_boolean_true
    (env : Env) (ctx : RequestCtx) (file embed : doc) (r : FileRecord)
    (obj : GetObjectOutput) (bytes : string) :
  classify (Path_ ctx) = FileResolve →
  lookupFile env (Resp ctx) (Path.Base (Path_ ctx)) = Next file →
  carries_fields file embed r →
  GetObject env (Getenv env "S3_BUCKET_NAME") (key r) = Ok obj →
  ReadAll_Body obj = Ok bytes →
  let w := Resp ctx in
  let raw := {| StatusCode := StatusCode w; RespContentType := deref (ContentType obj);
                RedirectURI := RedirectURI w; Body := bytes |} in
  requestHandler env ctx =
    (if bool_decide (file !! "userOnlyDomain" = Some (BBool true))
        && negb (String.eqb (Host ctx) (domain r))
     then Failed "invalid file" (sendErr env w "invalid file")
     else if bool_decide (embed !! "enabled" = Some (BBool true)) then
       finish (renderPage env w embedTemplate
                 (EmbedPage (embedPageData env (Host ctx) r)))
     else if bool_decide (file !! "showLink" = Some (BBool true)) then
       if String.eqb (category (mimetype r)) "video" then Served raw
       else finish (renderPage env w showLinkTemplate (ShowLinkPage (cdnURL env (key r))))
     else Served raw)
  ∧ (file !! "userOnlyDomain" ≠ Some (BBool true) →
     embed !! "enabled" ≠ Some (BBool true) →
     file !! "showLink" ≠ Some (BBool true) →
     requestHandler env ctx = Served raw).
Proof.
  intros Hcl Hl Hcf Hget Hread w raw. subst w raw.
  destruct Hcf as (Hfilename & Hkey & Hmimetype & Hsize & Hdomain
                   & (uploader & Huploader & Husername)
                   & Hembed & Htitle & Hauthor & Hdesc & Hcolor).
  assert (requestHandler env ctx =
    (if bool_decide (file !! "userOnlyDomain" = Some (BBool true))
        && negb (String.eqb (Host ctx) (domain r))
     then Failed "invalid file" (sendErr env (Resp ctx) "invalid file")
     else if bool_decide (embed !! "enabled" = Some (BBool true)) then
       finish (renderPage env (Resp ctx) embedTemplate
                 (EmbedPage (embedPageData env (Host ctx) r)))
     else if bool_decide (file !! "showLink" = Some (BBool true)) then
       if String.eqb (category (mimetype r)) "video"
       then Served (serveRaw (Resp ctx) obj bytes)
       else finish (renderPage env (Resp ctx) showLinkTemplate
                      (ShowLinkPage (cdnURL env (key r))))
     else Served (serveRaw (Resp ctx) obj bytes))) as E.
  { rewrite requestHandler_classify, Hcl, Hl. simpl. unfold serveFile, renderPage.
    rewrite !is_true_decide.
    rewrite Hdomain, Hkey, Hmimetype, Hembed, Huploader, Hfilename, Hsize.
    simpl. rewrite index0_SplitN2. simpl. rewrite Hdesc. simpl.
    rewrite (lookup_insert_eq embed "description").
    rewrite !(lookup_insert_ne embed "description") by done.
    rewrite is_true_decide, Hcolor, Husername, Hget, Hread. simpl.
    destruct (bool_decide (file !! "userOnlyDomain" = Some (BBool true))); simpl;
      [destruct (negb (String.eqb (Host ctx) (domain r))); simpl; [done|] |];
      (destruct (bool_decide (embed !! "enabled" = Some (BBool true))); [done|];
       destruct (bool_decide (file !! "showLink" = Some (BBool true))); [|done];
       unfold category;
       by destruct (String.eqb (first (Strings.SplitN2 (mimetype r) "/")) "video")). }
  split; [exact E|].
  intros Hu He Hs. rewrite E.
  by rewrite (bool_decide_eq_false_2 _ Hu), (bool_decide_eq_false_2 _ He),
    (bool_decide_eq_false_2 _ Hs).
Qed.

Lemma C10_witness :
  requestHandler Demo.env (newCtx "/notes.txt" "b.com")
  = Served {| StatusCode := 200; RespContentType := "application/octet-stream";
              RedirectURI := None; Body := "0123456789" |}.
Proof.
  destruct (C10_flag_needs_boolean_true Demo.env (newCtx "/notes.txt" "b.com")
              Demo.quirk
              (list_to_map
                 [("enabled", BBool false); ("title", BStr "t"); ("author", BStr "a");
                  ("description", BStr "d"); ("color", BStr "#0000ff")])
              Demo.notes
              {| ContentType := Some "application/octet-stream";
                 ReadAll_Body := Ok "0123456789" |} "0123456789")
    as [_ Hskip].
  - reflexivity.
  - reflexivity.
  - repeat split; try reflexivity. eexists. split; reflexivity.
  - reflexivity.
  - reflexivity.
  - apply Hskip; discriminate.
Defined.

(* ===================================================================== *)
(** * The oEmbed case as a whole *)
(* ===================================================================== *)

(** What a run of the oEmbed case that reaches its end has read. *)
Lemma oembedCase_Next (env : Env) (w w' : response) (basePath host : string) :
  oembedCase env w basePath host = Next w' →
  ∃ (d embed : doc) (title author : string),
    FindOne (collection (db env)) "filename" (Some (BStr (oembedKey basePath))) = Some d
    ∧ d !! "embed" = Some (BDoc embed)
    ∧ embed !! "title" = Some (BStr title)
    ∧ embed !! "author" = Some (BStr author)
    ∧ w' = Write (SetContentType w "application/json")
             (oembedBody env (Strings.ReplaceAll title domainToken host)
                             (Strings.ReplaceAll author domainToken host)).
Proof.
  unfold oembedCase. rewrite index0_SplitN2. simpl.
  fold (oembedKey basePath).
  destruct (FindOne (collection (db env)) "filename" (Some (BStr (oembedKey basePath))))
    as [d|] eqn:Hd; [|done].
  rewrite Decode_nil.
  destruct (d !! "embed") as [[s|b|z| |embed]|] eqn:He; try done. simpl.
  destruct (embed !! "title") as [[title|b|z| |e]|] eqn:Ht; try done. simpl.
  rewrite (lookup_insert_ne embed "title" "author") by done.
  destruct (embed !! "author") as [[author|b|z| |e]|] eqn:Hau; try done. simpl.
  rewrite (lookup_insert_ne (<["title" := _]> embed) "author" "title") by done.
  rewrite (lookup_insert_eq embed "title").
  rewrite (lookup_insert_eq (<["title" := _]> embed) "author"). simpl.
  rewrite jsonEncode_OEmbedResponse.
  intros [= <-]. by exists d, embed, title, author.
Qed.

(** What a run of the oEmbed case that ends early has done. *)
Lemma oembedCase_Exit (env : Env) (w : response) (basePath host : string) (o : outcome) :
  oembedCase env w basePath host = Exit o →
  o = Panicked ∨ o = Failed "invalid file" (sendErr env w "invalid file").
Proof.
  unfold oembedCase. rewrite index0_SplitN2. simpl.
  destruct (FindOne (collection (db env)) "filename" _) as [d|].
  2:{ intros [= <-]. by right. }
  rewrite Decode_nil.
  destruct (d !! "embed") as [[s|b|z| |embed]|]; simpl; try (intros [= <-]; by left).
  destruct (embed !! "title") as [[title|b|z| |e]|]; simpl; try (intros [= <-]; by left).
  rewrite (lookup_insert_ne embed "title" "author") by done.
  destruct (embed !! "author") as [[author|b|z| |e]|]; simpl; try (intros [= <-]; by left).
  rewrite (lookup_insert_ne (<["title" := _]> embed) "author" "title") by done.
  rewrite (lookup_insert_eq embed "title").
  rewrite (lookup_insert_eq (<["title" := _]> embed) "author"). simpl. done.
Qed.

(** X2.  A request whose base segment ends in [.json] is answered by the
    oEmbed case, also under [/s/]: the answer is the same whatever the
    shorteners and the aliases hold, and it is a panic, the "invalid
    file" envelope, or a JSON body that leaves the status and the redirect
    target of the response as they were. *)
Theorem X2_json_suffix_selects_oembed (env : Env) (ctx : RequestCtx) :
  Strings.HasSuffix (Path.Base (Path_ ctx)) ".json" = true →
  requestHandler env ctx
  = finish (oembedCase env (Resp ctx) (Path.Base (Path_ ctx)) (Host ctx))
  ∧ (∀ shorteners aliases,
       requestHandler (with_links env shorteners aliases) ctx = requestHandler env ctx)
  ∧ (requestHandler env ctx = Panicked
     ∨ requestHandler env ctx
       = Failed "invalid file" (sendErr env (Resp ctx) "invalid file")
     ∨ ∃ w', requestHandler env ctx = Served w'
             ∧ RespContentType w' = "application/json"
             ∧ StatusCode w' = StatusCode (Resp ctx)
             ∧ RedirectURI w' = RedirectURI (Resp ctx)).
Proof.
  intros Hj.
  assert (∀ e : Env, requestHandler e ctx
          = finish (oembedCase e (Resp ctx) (Path.Base (Path_ ctx)) (Host ctx))) as E.
  { intros e. unfold requestHandler.
    destruct (String.eqb_spec (Path_ ctx) "/") as [Hroot|_].
    - rewrite Hroot in Hj. discriminate Hj.
    - by rewrite Hj. }
  split; [apply E|]. split.
  - intros shorteners aliases. by rewrite !E.
  - rewrite E.
    destruct (oembedCase env (Resp ctx) (Path.Base (Path_ ctx)) (Host ctx))
      as [w'|o] eqn:Ho; simpl.
    + apply oembedCase_Next in Ho as (d & embed & title & author & _ & _ & _ & _ & ->).
      right; right. eexists. split; [done|]. done.
    + apply oembedCase_Exit in Ho as [-> | ->]; [by left | by right; left].
Qed.

Lemma X2_witness :
  requestHandler Demo.env (newCtx "/s/pic.png.json" "b.com")
  = finish (oembedCase Demo.env emptyResponse "pic.png.json" "b.com").
Proof.
  destruct (X2_json_suffix_selects_oembed Demo.env (newCtx "/s/pic.png.json" "b.com"))
    as [H _].
  - reflexivity.
  - exact H.
Defined.

(** X5.  A successful oEmbed answer is built from a record of the files
    collection whose file name is what precedes the first [.json] of the
    base segment, a name that holds no [.json]: the response is the JSON
    document of the record's embed title and author, with the domain token
    replaced by the host, written to the response it was given. *)
Theorem X5_oembed_served_key (env : Env) (ctx : RequestCtx) (w' : response) :
  classify (Path_ ctx) = OEmbed →
  requestHandler env ctx = Served w' →
  ∃ (d embed : doc) (k rest title author : string),
    d ∈ collection (db env)
    ∧ FindOne (collection (db env)) "filename" (Some (BStr k)) = Some d
    ∧ d !! "filename" = Some (BStr k)
    ∧ Path.Base (Path_ ctx) = k +:+ ".json" +:+ rest
    ∧ Strings.Index k ".json" = None
    ∧ d !! "embed" = Some (BDoc embed)
    ∧ embed !! "title" = Some (BStr title)
    ∧ embed !! "author" = Some (BStr author)
    ∧ w' = Write (SetContentType (Resp ctx) "application/json")
             (oembedBody env (Strings.ReplaceAll title "{domain}" (Host ctx))
                             (Strings.ReplaceAll author "{domain}" (Host ctx))).
Proof.
  intros Hc H.
  assert (Strings.HasSuffix (Path.Base (Path_ ctx)) ".json" = true) as Hj.
  { unfold classify in Hc.
    destruct (String.eqb (Path_ ctx) "/"); [done|].
    destruct (Strings.HasSuffix (Path.Base (Path_ ctx)) ".json"); [done|].
    destruct (Strings.HasPrefix (Path_ ctx) "/s/"
              && negb (String.eqb (Path.Base (Path_ ctx)) "s")); [done|].
    by destruct (negb (String.eqb (Path.Base (Path_ ctx)) "")
                 && negb (String.eqb (Path.Base (Path_ ctx)) "favicon.ico")). }
  destruct (oembedKey_first_json _ Hj) as (rest & Hb & Hk).
  rewrite requestHandler_classify, Hc in H.
  destruct (oembedCase env (Resp ctx) (Path.Base (Path_ ctx)) (Host ctx))
    as [w|o] eqn:Ho; simpl in H.
  - injection H as ->.
    apply oembedCase_Next in Ho as (d & embed & title & author & Hd & He & Ht & Ha & ->).
    pose proof Hd as [Hin Hm%field_matches_str]%FindOne_Some.
    by exists d, embed, (oembedKey (Path.Base (Path_ ctx))), rest, title, author.
  - apply oembedCase_Exit in Ho as [-> | ->]; discriminate H.
Qed.

Lemma X5_witness :
  ∃ (d embed : doc) (k rest title author : string),
    d ∈ collection (db Demo.env)
    ∧ FindOne (collection (db Demo.env)) "filename" (Some (BStr k)) = Some d
    ∧ d !! "filename" = Some (BStr k)
    ∧ Path.Base (Path_ (newCtx "/pic.png.json" "b.com")) = k +:+ ".json" +:+ rest
    ∧ Strings.Index k ".json" = None
    ∧ d !! "embed" = Some (BDoc embed)
    ∧ embed !! "title" = Some (BStr title)
    ∧ embed !! "author" = Some (BStr author)
    ∧ Write (SetContentType emptyResponse "application/json")
        (oembedBody Demo.env "b.com - b.com" "by b.com")
      = Write (SetContentType (Resp (newCtx "/pic.png.json" "b.com")) "application/json")
          (oembedBody Demo.env (Strings.ReplaceAll title "{domain}" "b.com")
                               (Strings.ReplaceAll author "{domain}" "b.com")).
Proof.
  apply (X5_oembed_served_key Demo.env (newCtx "/pic.png.json" "b.com")
           (Write (SetContentType emptyResponse "application/json")
              (oembedBody Demo.env "b.com - b.com" "by b.com"))).
  - reflexivity.
  - vm_compute. reflexivity.
Defined.
